(** * Promotion handlers and clone service of the PostgreSQL operator

    A shallow embedding of [controller/pod/promotionhandler.go] and of the
    clone service ([Clone], [createWorkflowTask], [validateCloneRequest]),
    with the properties their specification states about them.

    Go values are modelled as follows.
    - [string] is Rocq's [string]; [map[string]string] is [gmap string string],
      and reading a missing key gives the zero value (the empty string).
    - [error] is [option string]: [None] is [nil], [Some msg] an error whose
      [Error()] text is [msg].
    - A call can return, panic, or block for ever: [outcome].
    - Collaborators outside the two source files (the Kubernetes API, the
      remote command executor, the backup subsystem, the JSON decoder, the
      clock and the kernel's entropy file) are inputs of the model: every
      function takes what they answer and logs what it asked of them. *)

From Stdlib Require Import ZArith QArith Ascii String.
From stdpp Require Import base gmap strings list.

Open Scope string_scope.
Open Scope list_scope.
Open Scope Z_scope.

(** ** Go runtime: errors, outcomes, strings *)

Definition error : Type := option string.

Inductive outcome (A : Type) : Type :=
| Returns (a : A)
| Panics (why : string)
| Blocks.
Arguments Returns {A} a.
Arguments Panics {A} why.
Arguments Blocks {A}.

Module GoStrings.

(** [strings.HasPrefix(s, prefix)]. *)
Fixpoint HasPrefix (s prefix : string) {struct prefix} : bool :=
  match prefix with
  | EmptyString => true
  | String p prefix' =>
      match s with
      | EmptyString => false
      | String c s' => if Ascii.eqb c p then HasPrefix s' prefix' else false
      end
  end.

(** [strings.Contains(s, substr)]: [substr] occurs somewhere within [s]. *)
Fixpoint Contains (s substr : string) : bool :=
  if HasPrefix s substr then true
  else match s with
       | EmptyString => false
       | String _ s' => Contains s' substr
       end.

(** [m[k]] on a [map[string]string]: the zero value when [k] is absent. *)
Definition index (m : gmap string string) (k : string) : string :=
  default EmptyString (m !! k).

End GoStrings.

(** ** [encoding/json] into [interface{}] *)

Module Json.

(** What [json.Unmarshal] stores in an [interface{}]: [nil], [bool],
    [float64], [string], [[]interface{}] or [map[string]interface{}]. *)
#[warnings="-register-all"] Inductive any : Type :=
| Nil
| Bool (b : bool)
| Float64 (x : Q)
| Str (s : string)
| Slice (items : list any)
| Map (fields : list (string * any)).

(** [v == s] for an interface value [v] and a string constant [s]: true when
    the dynamic type is [string] and the texts agree, false for any other
    dynamic type. *)
Definition eqString (v : any) (s : string) : bool :=
  match v with
  | Str t => String.eqb t s
  | _ => false
  end.

Definition isNil (v : any) : bool :=
  match v with
  | Nil => true
  | _ => false
  end.

(** [v.(bool)]: the single-value type assertion panics unless the dynamic type
    is [bool]. *)
Definition assertBool (v : any) : outcome bool :=
  match v with
  | Bool b => Returns b
  | _ => Panics "interface conversion: interface {} is not bool"
  end.

(** [m[k]] on a [map[string]interface{}]: [nil] when [k] is absent, and also
    when [m] itself is the nil map (modelled as the empty map). *)
Definition index (m : gmap string any) (k : string) : any :=
  default Nil (m !! k).

(** The members of a JSON object as a Go map: a repeated key keeps its last
    value. *)
Definition ofFields (fields : list (string * any)) : gmap string any :=
  list_to_map (reverse fields).

Section Decoder.

(** The JSON grammar itself belongs to [encoding/json]: [parse data] is the
    value the text denotes, or [None] when the text is not valid JSON. *)
Variable parse : string -> option any.

(** [var m map[string]interface{}; err := json.Unmarshal([]byte(data), &m)].
    The text is checked as a whole before anything is stored, so on a syntax
    error [m] stays nil; a JSON [null] leaves it nil; a value that is no
    object is an [UnmarshalTypeError] and leaves it nil as well. *)
Definition UnmarshalMap (data : string) : gmap string any * error :=
  match parse data with
  | None => (∅, Some "invalid character looking for beginning of value")
  | Some (Map fields) => (ofFields fields, None)
  | Some Nil => (∅, None)
  | Some _ =>
      (∅, Some "json: cannot unmarshal into Go value of type map[string]interface {}")
  end.

End Decoder.

End Json.

(** ** Constants of the [config], [crv1], [msgs] and [apiserver] packages

    Their declarations are not part of the two source files, so they are
    taken as parameters. *)

Record Config : Type := {
  LABEL_PG_CLUSTER : string;
  LABEL_PGO_BACKREST_REPO : string;
  LABEL_PGBOUNCER : string;
  LABEL_PGBOUNCER_ROTATE_PASSWORD : string;
  LABEL_PGBOUNCER_TASK_CLUSTER : string;
  DEFAULT_PATRONI_PORT : string;
  ANNOTATION_IS_UPGRADED : string;
  ANNOTATIONS_FALSE : string;
  LABEL_PGO_CLONE : string;
  LABEL_PGO_CLONE_STEP_1 : string;
  LABEL_BACKREST_STORAGE_TYPE : string;
  PgtaskCloneStep1 : string;
  PgtaskWorkflow : string;
  PgtaskWorkflowCloneType : string;
  PgtaskWorkflowID : string;
  PgtaskWorkflowSubmittedStatus : string;
  CompletedStatus : string;
  UpgradeError : string;
  (** [fmt.Sprintf(apiserver.ErrMessagePVCSize, size, reason)] *)
  ErrMessagePVCSize : string -> string -> string
}.

(** ** Kubernetes and operator objects *)

Record Container : Type := { Container_Name : string }.

Record Pod : Type := {
  Pod_Name : string;
  Pod_Namespace : string;
  Pod_Containers : list Container
}.

Record Pgcluster : Type := {
  Cluster_Name : string;
  Cluster_Namespace : string;
  Cluster_Labels : gmap string string;
  Cluster_Annotations : gmap string string;
  Cluster_UserLabels : gmap string string
}.

(** ** [controller/pod/promotionhandler.go] *)

Module PodController.

(** Requests the handlers send to their collaborators, in the order sent. *)
Inductive Call : Type :=
| ExecToPodThroughAPI (cmd : list string) (container pod namespace : string)
| GetPods (selector namespace : string)
| CleanBackupResources (namespace clusterName : string)
| CreatePostFailoverBackup (namespace clusterName repoPod : string)
| CreatePgTaskforUpdatepgBouncer
    (cluster : Pgcluster) (todo : string) (parameters : gmap string string).

(** What the collaborators answer. [kubeapi.GetPods] hands back both a pod
    list and an error, and the handler looks at both. *)
Record Env : Type := {
  answerGetPods : string -> string -> list Pod * error;
  answerCleanBackupResources : string -> string -> error;
  answerCreatePostFailoverBackup : string -> string -> string -> error;
  answerCreatePgTaskforUpdatepgBouncer :
    Pgcluster -> string -> gmap string string -> error
}.

(** [kubeapi.ExecToPodThroughAPI] at one instant: the stdout it yields for a
    command, container, pod and namespace. The handler drops stderr and the
    error. *)
Definition Exec : Type := list string -> string -> string -> string -> string.

(** What the [select] of the wait loop receives: a tick of the 500 ms ticker
    (with the executor's behaviour at that instant), or the 5 minute timer. *)
Inductive event : Type :=
| Tick (exec : Exec)
| Deadline.

(** A channel delivery with the time, in milliseconds since the wait began,
    at which the loop received it. *)
Record fired : Type := { at_ms : Z; what : event }.

(** How one pass through the [case <-tick] branch ends. *)
Inductive tick_result : Type :=
| Continue (recoveryDisabled : bool)
| Finished (o : outcome error).

Record WaitResult : Type := {
  result : outcome error;
  finishedAt : option Z;
  calls : list (Z * Call)
}.

Definition isInRecoveryCMD : list string :=
  ["psql"; "-t"; "-c"; "select pg_is_in_recovery()"].

(** [time.Tick(500 * time.Millisecond)] and [time.After(time.Minute * 5)]. *)
Definition tickPeriod_ms : Z := 500.
Definition deadline_ms : Z := 5 * 60 * 1000.

(** The deliveries of the two timers when every probe completes within its
    tick: the ticker fires at each multiple of the period, the timer once at
    the deadline. When a tick and the deadline are due at the same instant the
    [select] may take either first; [tickFirst] is its choice. *)
Fixpoint tickDeliveries (execs : nat -> Exec) (k n : nat) : list fired :=
  match n with
  | O => []
  | S n' =>
      {| at_ms := tickPeriod_ms * Z.of_nat k; what := Tick (execs k) |}
      :: tickDeliveries execs (S k) n'
  end.

Definition timerDeliveries (tickFirst : bool) (execs : nat -> Exec)
  : list fired :=
  let before := Z.to_nat ((deadline_ms - 1) / tickPeriod_ms) in
  tickDeliveries execs 1 before ++
  (if tickFirst && (deadline_ms mod tickPeriod_ms =? 0)
   then tickDeliveries execs (S before) 1
   else []) ++
  [{| at_ms := deadline_ms; what := Deadline |}].

Section Handlers.

Variable cfg : Config.
Variable parseJSON : string -> option Json.any.

Definition leaderStatusCMD : list string :=
  ["curl"; "localhost:" +:+ DEFAULT_PATRONI_PORT cfg +:+ "/master"].

(** Lines 115-122: the body of [if !recoveryDisabled]. The result is the
    value of [recoveryDisabled] afterwards. [Containers[0]] is evaluated
    while the arguments of the call are built, so a pod without containers
    panics before anything is executed. *)
Definition probeRecovery (newPod : Pod) (exec : Exec) (recoveryDisabled : bool)
  : outcome bool * list Call :=
  if recoveryDisabled then (Returns true, [])
  else
    match Pod_Containers newPod with
    | [] => (Panics "index out of range [0] with length 0", [])
    | c :: _ =>
        let isInRecoveryStr :=
          exec isInRecoveryCMD (Container_Name c) (Pod_Name newPod)
            (Pod_Namespace newPod) in
        (Returns (GoStrings.Contains isInRecoveryStr "f"),
         [ExecToPodThroughAPI isInRecoveryCMD (Container_Name c)
            (Pod_Name newPod) (Pod_Namespace newPod)])
    end.

(** Lines 129-130: [primaryJSON["state"] == "running" &&
    (primaryJSON["pending_restart"] == nil ||
     !primaryJSON["pending_restart"].(bool))], with Go's short-circuit
    evaluation. *)
Definition leaderReady (primaryJSON : gmap string Json.any) : outcome bool :=
  if Json.eqString (Json.index primaryJSON "state") "running" then
    if Json.isNil (Json.index primaryJSON "pending_restart") then Returns true
    else
      match Json.assertBool (Json.index primaryJSON "pending_restart") with
      | Returns b => Returns (negb b)
      | Panics why => Panics why
      | Blocks => Blocks
      end
  else Returns false.

(** Lines 123-133: the body of [if recoveryDisabled]. [None] stands for
    falling out of the [if] and back to the [select]. *)
Definition probeLeader (newPod : Pod) (exec : Exec)
  : option (outcome error) * list Call :=
  match Pod_Containers newPod with
  | [] => (Some (Panics "index out of range [0] with length 0"), [])
  | c :: _ =>
      let primaryJSONStr :=
        exec leaderStatusCMD (Container_Name c) (Pod_Name newPod)
          (Pod_Namespace newPod) in
      let primaryJSON := fst (Json.UnmarshalMap parseJSON primaryJSONStr) in
      let asked :=
        [ExecToPodThroughAPI leaderStatusCMD (Container_Name c)
           (Pod_Name newPod) (Pod_Namespace newPod)] in
      match leaderReady primaryJSON with
      | Returns true => (Some (Returns None), asked)
      | Returns false => (None, asked)
      | Panics why => (Some (Panics why), asked)
      | Blocks => (Some Blocks, asked)
      end
  end.

(** Lines 114-133: one [case <-tick]. *)
Definition pollOnce (newPod : Pod) (exec : Exec) (recoveryDisabled : bool)
  : tick_result * list Call :=
  match probeRecovery newPod exec recoveryDisabled with
  | (Returns true, asked) =>
      match probeLeader newPod exec with
      | (Some o, asked') => (Finished o, asked ++ asked')
      | (None, asked') => (Continue true, asked ++ asked')
      end
  | (Returns false, asked) => (Continue false, asked)
  | (Panics why, asked) => (Finished (Panics why), asked)
  | (Blocks, asked) => (Finished Blocks, asked)
  end.

Definition timedOut (cluster : Pgcluster) : string :=
  "timed out waiting for cluster " +:+ Cluster_Name cluster +:+
  " to accept writes after disabling standby mode".

(** Lines 109-135: the [for { select { ... } }] loop over what the two
    channels deliver. When nothing more is delivered the [select] blocks. *)
Fixpoint waitLoop (newPod : Pod) (cluster : Pgcluster)
    (recoveryDisabled : bool) (deliveries : list fired) : WaitResult :=
  match deliveries with
  | [] => {| result := Blocks; finishedAt := None; calls := [] |}
  | {| at_ms := t; what := Deadline |} :: _ =>
      {| result := Returns (Some (timedOut cluster));
         finishedAt := Some t; calls := [] |}
  | {| at_ms := t; what := Tick exec |} :: rest =>
      match pollOnce newPod exec recoveryDisabled with
      | (Finished o, asked) =>
          {| result := o; finishedAt := Some t;
             calls := map (pair t) asked |}
      | (Continue recoveryDisabled', asked) =>
          let r := waitLoop newPod cluster recoveryDisabled' rest in
          {| result := result r; finishedAt := finishedAt r;
             calls := map (pair t) asked ++ calls r |}
      end
  end.

(** Lines 87-136. [var recoveryDisabled bool] starts out false. *)
Definition waitForStandbyPromotion (newPod : Pod) (cluster : Pgcluster)
    (deliveries : list fired) : WaitResult :=
  waitLoop newPod cluster false deliveries.

(** Lines 144-145: [fmt.Sprintf("%s=%s,%s=true", ...)]. *)
Definition repoSelector (clusterName : string) : string :=
  LABEL_PG_CLUSTER cfg +:+ "=" +:+ clusterName +:+ "," +:+
  LABEL_PGO_BACKREST_REPO cfg +:+ "=true".

Definition podsLenError (clusterName : string) : string :=
  "pods len != 1 for cluster " +:+ clusterName.

(** Lines 140-165. *)
Definition cleanAndCreatePostFailoverBackup (env : Env)
    (clusterName namespace : string) : outcome error * list Call :=
  let selector := repoSelector clusterName in
  let '(pods, err) := answerGetPods env selector namespace in
  let asked := [GetPods selector namespace] in
  match pods with
  | [repo] =>
      match err with
      | Some e => (Returns (Some e), asked)
      | None =>
          match answerCleanBackupResources env namespace clusterName with
          | Some e =>
              (Returns (Some e),
               asked ++ [CleanBackupResources namespace clusterName])
          | None =>
              (Returns
                 (answerCreatePostFailoverBackup env namespace clusterName
                    (Pod_Name repo)),
               asked ++ [CleanBackupResources namespace clusterName;
                         CreatePostFailoverBackup namespace clusterName
                           (Pod_Name repo)])
          end
      end
  | _ => (Returns (Some (podsLenError clusterName)), asked)
  end.

(** Lines 38-47. *)
Definition handlePostgresPodPromotion (env : Env) (newPod : Pod)
    (clusterName : string) : outcome error * list Call :=
  cleanAndCreatePostFailoverBackup env clusterName (Pod_Namespace newPod).

(** Lines 62-66: the parameters of the pgBouncer password rotation task. *)
Definition rotationParameters (cluster : Pgcluster) : gmap string string :=
  <[LABEL_PGBOUNCER_TASK_CLUSTER cfg := Cluster_Name cluster]>
    {[LABEL_PGBOUNCER_ROTATE_PASSWORD cfg := "true"]}.

(** Lines 52-81. *)
Definition handleStandbyPromotion (env : Env) (deliveries : list fired)
    (newPod : Pod) (cluster : Pgcluster) : outcome error * list Call :=
  let clusterName := Cluster_Name cluster in
  let namespace := Cluster_Namespace cluster in
  let waited := waitForStandbyPromotion newPod cluster deliveries in
  let asked := map snd (calls waited) in
  match result waited with
  | Returns None =>
      if String.eqb (GoStrings.index (Cluster_Labels cluster) (LABEL_PGBOUNCER cfg))
           "true"
      then
        let parameters := rotationParameters cluster in
        let rotate :=
          [CreatePgTaskforUpdatepgBouncer cluster EmptyString parameters] in
        match answerCreatePgTaskforUpdatepgBouncer env cluster EmptyString
                parameters with
        | Some e => (Returns (Some e), asked ++ rotate)
        | None =>
            let '(o, asked') :=
              cleanAndCreatePostFailoverBackup env clusterName namespace in
            (o, asked ++ rotate ++ asked')
        end
      else
        let '(o, asked') :=
          cleanAndCreatePostFailoverBackup env clusterName namespace in
        (o, asked ++ asked')
  | o => (o, asked)
  end.

End Handlers.

End PodController.

(** ** The clone service *)

Module CloneService.

Record PgtaskSpec : Type := {
  Spec_Namespace : string;
  Spec_Name : string;
  Spec_TaskType : string;
  Spec_Status : string;
  Spec_Parameters : gmap string string
}.

(** A [crv1.Pgtask]: the name and labels of its [ObjectMeta], and its spec. *)
Record Pgtask : Type := {
  Task_Name : string;
  Task_Labels : gmap string string;
  Task_Spec : PgtaskSpec
}.

Record CloneRequest : Type := {
  SourceClusterName : string;
  TargetClusterName : string;
  PVCSize : string;
  BackrestPVCSize : string;
  BackrestStorageSource : string;
  EnableMetrics : bool
}.

(** [msgs.Ok] and [msgs.Error]. *)
Inductive StatusCode : Type := Ok | Error.

Record CloneResponse : Type := {
  Status_Code : StatusCode;
  Status_Msg : string;
  Response_TargetClusterName : string;
  Response_WorkflowID : string
}.

(** [util.CloneTask], as [Clone] fills it in. *)
Record CloneTask : Type := {
  CT_BackrestPVCSize : string;
  CT_BackrestStorageSource : string;
  CT_EnableMetrics : bool;
  CT_PGOUser : string;
  CT_PVCSize : string;
  CT_SourceClusterName : string;
  CT_TargetClusterName : string;
  CT_TaskStepLabel : string;
  CT_TaskType : string;
  CT_Timestamp : string;
  CT_WorkflowID : string
}.

(** Requests [Clone] sends out of the process, in the order sent. The first
    three go to the resource store. *)
Inductive ApiCall : Type :=
| PgclustersGet (namespace name : string)
| PgtasksList (namespace selector : string)
| PgtasksCreate (namespace : string) (task : Pgtask)
| ReadFile (path : string).

Definition isStoreCall (c : ApiCall) : bool :=
  match c with
  | ReadFile _ => false
  | _ => true
  end.

Definition isCreate (c : ApiCall) : bool :=
  match c with
  | PgtasksCreate _ _ => true
  | _ => false
  end.

(** The world [Clone] runs in: the records the resource store holds, how the
    API server answers (its label-selector matching, and the requests it
    fails), what the entropy file, the random-string helper and the clock
    yield, and the requests made so far. *)
Record World : Type := {
  pgclusters : list Pgcluster;
  pgtasks : list (string * Pgtask);
  selectorMatches : string -> gmap string string -> bool;
  apiFault : ApiCall -> error;
  uuidFile : string * error;
  randString : nat -> string;
  clock : string;
  asked : list ApiCall
}.

Definition logged (c : ApiCall) (w : World) : World :=
  {| pgclusters := pgclusters w; pgtasks := pgtasks w;
     selectorMatches := selectorMatches w; apiFault := apiFault w;
     uuidFile := uuidFile w; randString := randString w; clock := clock w;
     asked := asked w ++ [c] |}.

Definition stored (namespace : string) (task : Pgtask) (w : World) : World :=
  {| pgclusters := pgclusters w;
     pgtasks := pgtasks w ++ [(namespace, task)];
     selectorMatches := selectorMatches w; apiFault := apiFault w;
     uuidFile := uuidFile w; randString := randString w; clock := clock w;
     asked := asked w |}.

(** What a get, a list and a create find in the world. *)
Definition lookupCluster (w : World) (namespace name : string)
  : Pgcluster + string :=
  match apiFault w (PgclustersGet namespace name) with
  | Some e => inr e
  | None =>
      match
        find (fun c => String.eqb (Cluster_Namespace c) namespace
                       && String.eqb (Cluster_Name c) name) (pgclusters w)
      with
      | Some c => inl c
      | None => inr ("pgclusters.crunchydata.com " +:+ name +:+ " not found")
      end
  end.

Definition selectTasks (w : World) (namespace selector : string)
  : list Pgtask + string :=
  match apiFault w (PgtasksList namespace selector) with
  | Some e => inr e
  | None =>
      inl (map snd
             (filter (fun nt => fst nt = namespace
                                /\ selectorMatches w selector (Task_Labels (snd nt)) = true)
                (pgtasks w)))
  end.

(** The state monad of the service: a computation runs in a world, leaves a
    world, and either returns or panics. *)
Definition M (A : Type) : Type := World -> outcome A * World.

Definition ret {A : Type} (a : A) : M A := fun w => (Returns a, w).

Definition bind {A B : Type} (m : M A) (k : A -> M B) : M B :=
  fun w =>
    match m w with
    | (Returns a, w') => k a w'
    | (Panics why, w') => (Panics why, w')
    | (Blocks, w') => (Blocks, w')
    end.

Declare Scope go_scope.
Delimit Scope go_scope with go.
Notation "x <- m ;; k" := (bind m (fun x => k))
  (at level 100, m at next level, right associativity) : go_scope.
Open Scope go_scope.

Definition Pgclusters_Get (namespace name : string) : M (Pgcluster + string) :=
  fun w => (Returns (lookupCluster w namespace name),
            logged (PgclustersGet namespace name) w).

Definition Pgtasks_List (namespace selector : string)
  : M (list Pgtask + string) :=
  fun w => (Returns (selectTasks w namespace selector),
            logged (PgtasksList namespace selector) w).

Definition Pgtasks_Create (namespace : string) (task : Pgtask) : M error :=
  fun w =>
    match apiFault w (PgtasksCreate namespace task) with
    | Some e => (Returns (Some e), logged (PgtasksCreate namespace task) w)
    | None =>
        (Returns None,
         stored namespace task (logged (PgtasksCreate namespace task) w))
    end.

Definition ioutil_ReadFile (path : string) : M (string * error) :=
  fun w => (Returns (uuidFile w), logged (ReadFile path) w).

Definition RandStringBytesRmndr (n : nat) : M string :=
  fun w => (Returns (randString w n), w).

(** [time.Now()], as the text the tasks carry. *)
Definition time_Now : M string := fun w => (Returns (clock w), w).

Definition panic {A : Type} (why : string) : M A := fun w => (Panics why, w).

(** [string(u[:len(u)-1])]: slicing an empty [u] up to -1 panics. *)
Fixpoint dropLast (u : string) : string :=
  match u with
  | EmptyString => EmptyString
  | String c EmptyString => EmptyString
  | String c u' => String c (dropLast u')
  end.

Definition sliceToLast (u : string) : M string :=
  match u with
  | EmptyString => panic "slice bounds out of range [:-1]"
  | _ => ret (dropLast u)
  end.

Section Service.

Variable cfg : Config.

(** [apiserver.ValidateQuantity] and
    [util.ValidateBackrestStorageTypeOnBackupRestore] are defined outside the
    source files; the validation takes their verdicts as given. *)
Variable ValidateQuantity : string -> error.
Variable ValidateBackrestStorageTypeOnBackupRestore :
  string -> string -> bool -> error.

(** Lines 190-221. *)
Definition validateCloneRequest (request : CloneRequest) (cluster : Pgcluster)
  : error :=
  if String.eqb (SourceClusterName request) EmptyString then
    Some "the source cluster name must be set"
  else if String.eqb (TargetClusterName request) EmptyString then
    Some "the target cluster name must be set"
  else
    match ValidateQuantity (PVCSize request) with
    | Some e => Some (ErrMessagePVCSize cfg (PVCSize request) e)
    | None =>
        match ValidateQuantity (BackrestPVCSize request) with
        | Some e => Some (ErrMessagePVCSize cfg (BackrestPVCSize request) e)
        | None =>
            ValidateBackrestStorageTypeOnBackupRestore
              (BackrestStorageSource request)
              (GoStrings.index (Cluster_UserLabels cluster)
                 (LABEL_BACKREST_STORAGE_TYPE cfg))
              true
        end
    end.

(** Lines 158-177: the workflow record. *)
Definition workflowTask (targetClusterName uid namespace id now : string)
  : Pgtask :=
  let taskName :=
    targetClusterName +:+ "-" +:+ uid +:+ "-" +:+ PgtaskWorkflowCloneType cfg in
  {| Task_Name := taskName;
     Task_Labels :=
       <[PgtaskWorkflowID cfg := id]>
         {[LABEL_PG_CLUSTER cfg := targetClusterName]};
     Task_Spec :=
       {| Spec_Namespace := namespace;
          Spec_Name := taskName;
          Spec_TaskType := PgtaskWorkflow cfg;
          Spec_Status := EmptyString;
          Spec_Parameters :=
            <[PgtaskWorkflowID cfg := id]>
              (<[LABEL_PG_CLUSTER cfg := targetClusterName]>
                 {[PgtaskWorkflowSubmittedStatus cfg := now]}) |} |}.

(** Lines 147-186. *)
Definition createWorkflowTask (targetClusterName uid namespace : string)
  : M (string * error) :=
  read <- ioutil_ReadFile "/proc/sys/kernel/random/uuid" ;;
  match read with
  | (_, Some err) => ret (EmptyString, Some err)
  | (u, None) =>
      id <- sliceToLast u ;;
      now <- time_Now ;;
      created <- Pgtasks_Create namespace
                   (workflowTask targetClusterName uid namespace id now) ;;
      match created with
      | Some err => ret (EmptyString, Some err)
      | None => ret (id, None)
      end
  end.

(** Modelled from the spec: [util.CloneTask.Create] belongs to the
    repository's [util] package, which is not among the source files. The
    specification (4.5, step 6) has the first task of the clone chain carry
    all validated parameters (storage sizes, storage source, metrics flag,
    requesting user, timestamp, workflow identifier) and be labeled for the
    target cluster and this workflow; a task (3) has a type, a status, a
    label set and a parameter mapping. The conflict check (4.5, step 4)
    finds clone tasks by their clone label, which the task therefore carries
    too. *)
Definition CloneTask_Create (clone : CloneTask) : Pgtask :=
  {| Task_Name :=
       CT_TargetClusterName clone +:+ "-" +:+ CT_TaskStepLabel clone;
     Task_Labels :=
       <[PgtaskWorkflowID cfg := CT_WorkflowID clone]>
         (<[LABEL_PG_CLUSTER cfg := CT_TargetClusterName clone]>
            {[LABEL_PGO_CLONE cfg := "true"]});
     Task_Spec :=
       {| Spec_Namespace := EmptyString;
          Spec_Name := CT_TargetClusterName clone;
          Spec_TaskType := CT_TaskType clone;
          Spec_Status := EmptyString;
          Spec_Parameters :=
            <[PgtaskWorkflowID cfg := CT_WorkflowID clone]>
              (list_to_map
                 [("backrestPVCSize", CT_BackrestPVCSize clone);
                  ("backrestStorageSource", CT_BackrestStorageSource clone);
                  ("enableMetrics",
                   if CT_EnableMetrics clone then "true" else "false");
                  ("pgouser", CT_PGOUser clone);
                  ("pvcSize", CT_PVCSize clone);
                  ("sourceClusterName", CT_SourceClusterName clone);
                  ("targetClusterName", CT_TargetClusterName clone);
                  ("timestamp", CT_Timestamp clone)]) |} |}.

Definition failed (response : CloneResponse) (msg : string) : CloneResponse :=
  {| Status_Code := Error; Status_Msg := msg;
     Response_TargetClusterName := Response_TargetClusterName response;
     Response_WorkflowID := Response_WorkflowID response |}.

Definition isPending (task : Pgtask) : bool :=
  negb (String.eqb (Spec_Status (Task_Spec task)) (CompletedStatus cfg)).

Definition ongoingCloneMsg (task : Pgtask) : string :=
  "Could not clone cluster: there exists an ongoing clone task: [" +:+
  Spec_Name (Task_Spec task) +:+
  "]. If you believe this is an error, try deleting this pgtask CRD.".

Definition cloneSelector (request : CloneRequest) : string :=
  LABEL_PGO_CLONE cfg +:+ "=true,pg-cluster=" +:+ TargetClusterName request.

(** Lines 35-143. *)
Definition Clone (request : CloneRequest) (namespace pgouser : string)
  : M CloneResponse :=
  let response :=
    {| Status_Code := Ok; Status_Msg := EmptyString;
       Response_TargetClusterName := EmptyString;
       Response_WorkflowID := EmptyString |} in
  got <- Pgclusters_Get namespace (SourceClusterName request) ;;
  match got with
  | inr err => ret (failed response ("Could not get cluster: " +:+ err))
  | inl sourcePgcluster =>
  match validateCloneRequest request sourcePgcluster with
  | Some err => ret (failed response err)
  | None =>
  if String.eqb
       (GoStrings.index (Cluster_Annotations sourcePgcluster)
          (ANNOTATION_IS_UPGRADED cfg))
       (ANNOTATIONS_FALSE cfg)
  then ret (failed response (Cluster_Name sourcePgcluster +:+ UpgradeError cfg))
  else
  target <- Pgclusters_Get namespace (TargetClusterName request) ;;
  match target with
  | inl _ =>
      ret (failed response
             ("Could not clone cluster: " +:+ TargetClusterName request +:+
              " already exists"))
  | inr _ =>
  taskList <- Pgtasks_List namespace (cloneSelector request) ;;
  match taskList with
  | inr err =>
      ret (failed response
             ("Could not clone cluster: could not validate " +:+ err))
  | inl items =>
  match find isPending items with
  | Some task => ret (failed response (ongoingCloneMsg task))
  | None =>
  uid <- RandStringBytesRmndr 4 ;;
  workflow <- createWorkflowTask (TargetClusterName request) uid namespace ;;
  match workflow with
  | (_, Some err) =>
      ret (failed response
             ("could not create clone workflow task: " +:+ err))
  | (workflowID, None) =>
  now <- time_Now ;;
  let cloneTask :=
    {| CT_BackrestPVCSize := BackrestPVCSize request;
       CT_BackrestStorageSource := BackrestStorageSource request;
       CT_EnableMetrics := EnableMetrics request;
       CT_PGOUser := pgouser;
       CT_PVCSize := PVCSize request;
       CT_SourceClusterName := SourceClusterName request;
       CT_TargetClusterName := TargetClusterName request;
       CT_TaskStepLabel := LABEL_PGO_CLONE_STEP_1 cfg;
       CT_TaskType := PgtaskCloneStep1 cfg;
       CT_Timestamp := now;
       CT_WorkflowID := workflowID |} in
  created <- Pgtasks_Create namespace (CloneTask_Create cloneTask) ;;
  match created with
  | Some err =>
      ret (failed response ("Could not create clone task: " +:+ err))
  | None =>
      ret {| Status_Code := Status_Code response;
             Status_Msg := Status_Msg response;
             Response_TargetClusterName := TargetClusterName request;
             Response_WorkflowID := workflowID |}
  end end end end end end end.

(** What the store holds for a workflow: its record, and the first step of
    the clone chain, both for a target cluster and under one identifier. *)
Definition labelled (key value : string) (task : Pgtask) : bool :=
  bool_decide (Task_Labels task !! key = Some value).

Definition isWorkflowRecord (target id : string) (task : Pgtask) : bool :=
  String.eqb (Spec_TaskType (Task_Spec task)) (PgtaskWorkflow cfg)
  && labelled (LABEL_PG_CLUSTER cfg) target task
  && labelled (PgtaskWorkflowID cfg) id task.

Definition isCloneStep1 (target id : string) (task : Pgtask) : bool :=
  String.eqb (Spec_TaskType (Task_Spec task)) (PgtaskCloneStep1 cfg)
  && labelled (LABEL_PG_CLUSTER cfg) target task
  && labelled (PgtaskWorkflowID cfg) id task.

End Service.

End CloneService.

(** ** What a run of the wait shows *)

Module Observe.

Import PodController.

(** A request that runs the is-in-recovery query (signal A). *)
Definition isRecoveryProbe (c : Call) : bool :=
  match c with
  | ExecToPodThroughAPI cmd _ _ _ => bool_decide (cmd = isInRecoveryCMD)
  | _ => false
  end.

(** The step of the standby handler a request belongs to: 1 the promotion
    wait, 2 the rotation task, 3 the backup orchestration. *)
Definition stepOf (c : Call) : nat :=
  match c with
  | ExecToPodThroughAPI _ _ _ _ => 1
  | CreatePgTaskforUpdatepgBouncer _ _ _ => 2
  | GetPods _ _ => 3
  | CleanBackupResources _ _ => 3
  | CreatePostFailoverBackup _ _ _ => 3
  end.

Definition isBackupCall (c : Call) : bool :=
  match c with
  | CleanBackupResources _ _ => true
  | CreatePostFailoverBackup _ _ _ => true
  | _ => false
  end.

(** The character [c] stands somewhere in [s]. *)
Definition occurs (c : ascii) (s : string) : Prop :=
  exists before after, s = before +:+ String c after.

(** The stdout of the two probes of a tick, for the pod's first container. *)
Definition recoveryStdout (newPod : Pod) (exec : Exec) : string :=
  match Pod_Containers newPod with
  | c :: _ =>
      exec isInRecoveryCMD (Container_Name c) (Pod_Name newPod)
        (Pod_Namespace newPod)
  | [] => EmptyString
  end.

Section Runs.

Variable cfg : Config.
Variable parseJSON : string -> option Json.any.

Definition leaderStdout (newPod : Pod) (exec : Exec) : string :=
  match Pod_Containers newPod with
  | c :: _ =>
      exec (leaderStatusCMD cfg) (Container_Name c) (Pod_Name newPod)
        (Pod_Namespace newPod)
  | [] => EmptyString
  end.

(** The value of [recoveryDisabled] when the loop is back at its [select]
    after the given deliveries; [None] when it has returned by then. *)
Fixpoint recoveryDisabledAfter (newPod : Pod) (recoveryDisabled : bool)
    (deliveries : list fired) : option bool :=
  match deliveries with
  | [] => Some recoveryDisabled
  | {| what := Deadline |} :: _ => None
  | {| what := Tick exec |} :: rest =>
      match fst (pollOnce cfg parseJSON newPod exec recoveryDisabled) with
      | Continue recoveryDisabled' =>
          recoveryDisabledAfter newPod recoveryDisabled' rest
      | Finished _ => None
      end
  end.

(** At a tick, signal A does not report the end of recovery; signal B is
    evaluated as not ready (the condition of lines 129-130 is false). *)
Definition stillInRecovery (newPod : Pod) (exec : Exec) : Prop :=
  GoStrings.Contains (recoveryStdout newPod exec) "f" = false.

Definition leaderNotReady (newPod : Pod) (exec : Exec) : Prop :=
  leaderReady (fst (Json.UnmarshalMap parseJSON (leaderStdout newPod exec)))
  = Returns false.

(** The readiness conditions hold at none of the deliveries, which are all
    ticks: at each of them [recoveryDisabled] is still unset after signal A,
    or signal B is evaluated as not ready. The flag is carried from tick to
    tick as the loop carries it, so a wait may leave recovery at any tick and
    go on waiting for its leader. *)
Fixpoint noTickReady (newPod : Pod) (recoveryDisabled : bool)
    (ticks : list fired) : Prop :=
  match ticks with
  | [] => True
  | {| what := Deadline |} :: _ => False
  | {| what := Tick exec |} :: rest =>
      let disabled :=
        recoveryDisabled
        || GoStrings.Contains (recoveryStdout newPod exec) "f" in
      (disabled = false \/ leaderNotReady newPod exec)
      /\ noTickReady newPod disabled rest
  end.

End Runs.

End Observe.

(** ** What a run of the clone service shows *)

Module CloneObserve.

Import CloneService.

(** The kinds of request [Clone] makes. *)
Inductive RequestKind : Type := KGet | KList | KCreate | KRead.

Definition kindOf (c : ApiCall) : RequestKind :=
  match c with
  | PgclustersGet _ _ => KGet
  | PgtasksList _ _ => KList
  | PgtasksCreate _ _ => KCreate
  | ReadFile _ => KRead
  end.

(** The requests of a clone that goes all the way, in the order of lines
    50-133: the two gets, the list, the entropy read and the two creates. *)
Definition fullRun : list RequestKind :=
  [KGet; KGet; KList; KRead; KCreate; KCreate].

(** The workflow records the store holds for a target cluster, whatever
    their identifier. *)
Definition workflowRecordsFor (cfg : Config) (target : string) (w : World)
  : list Pgtask :=
  List.filter
    (fun task =>
       String.eqb (Spec_TaskType (Task_Spec task)) (PgtaskWorkflow cfg)
       && labelled (LABEL_PG_CLUSTER cfg) target task)
    (map snd (pgtasks w)).

End CloneObserve.

(** ** Sample inputs *)

Module Samples.

Import PodController.

Definition dq : string := String (Ascii.ascii_of_nat 34) EmptyString.

Definition config : Config :=
  {| LABEL_PG_CLUSTER := "pg-cluster";
     LABEL_PGO_BACKREST_REPO := "pgo-backrest-repo";
     LABEL_PGBOUNCER := "crunchy-pgbouncer";
     LABEL_PGBOUNCER_ROTATE_PASSWORD := "pgbouncer-rotate-password";
     LABEL_PGBOUNCER_TASK_CLUSTER := "pgbouncer-cluster";
     DEFAULT_PATRONI_PORT := "8009";
     ANNOTATION_IS_UPGRADED := "is-upgraded";
     ANNOTATIONS_FALSE := "false";
     LABEL_PGO_CLONE := "pgo-clone";
     LABEL_PGO_CLONE_STEP_1 := "pgo-clone-step-1";
     LABEL_BACKREST_STORAGE_TYPE := "backrest-storage-type";
     PgtaskCloneStep1 := "clone-step1";
     PgtaskWorkflow := "workflow";
     PgtaskWorkflowCloneType := "cloneworkflow";
     PgtaskWorkflowID := "workflowid";
     PgtaskWorkflowSubmittedStatus := "task submitted";
     CompletedStatus := "completed";
     UpgradeError := " has not yet been upgraded";
     ErrMessagePVCSize :=
       fun size reason =>
         "could not understand the PVC size " +:+ size +:+ ": " +:+ reason |}.

(** [{"state":"running","pending_restart":"yes"}], [{"state":"starting"}]
    and [{"state":"running"}], and a text that is no JSON at all. *)
Definition illTypedStatus : string :=
  "{" +:+ dq +:+ "state" +:+ dq +:+ ":" +:+ dq +:+ "running" +:+ dq +:+ "," +:+
  dq +:+ "pending_restart" +:+ dq +:+ ":" +:+ dq +:+ "yes" +:+ dq +:+ "}".

Definition startingStatus : string :=
  "{" +:+ dq +:+ "state" +:+ dq +:+ ":" +:+ dq +:+ "starting" +:+ dq +:+ "}".

Definition runningStatus : string :=
  "{" +:+ dq +:+ "state" +:+ dq +:+ ":" +:+ dq +:+ "running" +:+ dq +:+ "}".

Definition garbledStatus : string := "curl: (7) Failed to connect".

(** A decoder that knows the sample objects and rejects other texts. *)
Definition parse (data : string) : option Json.any :=
  if String.eqb data illTypedStatus then
    Some (Json.Map [("state", Json.Str "running");
                    ("pending_restart", Json.Str "yes")])
  else if String.eqb data startingStatus then
    Some (Json.Map [("state", Json.Str "starting")])
  else if String.eqb data runningStatus then
    Some (Json.Map [("state", Json.Str "running")])
  else None.

Definition pod : Pod :=
  {| Pod_Name := "hippo-7c9d";
     Pod_Namespace := "pgo";
     Pod_Containers := [{| Container_Name := "database" |}] |}.

Definition repoPod : Pod :=
  {| Pod_Name := "hippo-backrest-shared-repo-5f6b";
     Pod_Namespace := "pgo";
     Pod_Containers := [{| Container_Name := "database" |}] |}.

Definition cluster : Pgcluster :=
  {| Cluster_Name := "hippo";
     Cluster_Namespace := "pgo";
     Cluster_Labels := {["crunchy-pgbouncer" := "true"]};
     Cluster_Annotations := ∅;
     Cluster_UserLabels := ∅ |}.

(** An executor answering the recovery query with [recovery] and the leader
    status probe with [leader]. *)
Definition answering (recovery leader : string) : Exec :=
  fun cmd _ _ _ =>
    if bool_decide (cmd = isInRecoveryCMD) then recovery else leader.

(** Out of recovery, leader still starting; back to [t] on the next read;
    a status whose pending_restart is a string. *)
Definition promoted : Exec := answering " f" startingStatus.
Definition relapsed : Exec := answering " t" startingStatus.
Definition inRecovery : Exec := answering " t" garbledStatus.
Definition illTyped : Exec := answering " f" illTypedStatus.
Definition writable : Exec := answering " f" runningStatus.
Definition deferred : Exec := answering "ERROR: deferred" garbledStatus.

(** A wait whose pod leaves recovery at its third tick and whose leader is
    still starting afterwards. *)
Definition lateExit : list fired :=
  [{| at_ms := 500; what := Tick inRecovery |};
   {| at_ms := 1000; what := Tick inRecovery |};
   {| at_ms := 1500; what := Tick promoted |};
   {| at_ms := 2000; what := Tick relapsed |}].

(** The probe of the tick received at 299.5 s stalls and returns at 725 s.
    The loop is inside that probe when the timer fires at 300 s; its
    [select] receives the timer's firing when it is back, at 725 s. *)
Definition stalledTick : fired :=
  {| at_ms := 299500; what := Tick inRecovery |}.

Definition stalled : list fired :=
  [stalledTick; {| at_ms := 725000; what := Deadline |}].

Definition envWith (pods : list Pod * error) (clean create rotate : error)
  : Env :=
  {| answerGetPods := fun _ _ => pods;
     answerCleanBackupResources := fun _ _ => clean;
     answerCreatePostFailoverBackup := fun _ _ _ => create;
     answerCreatePgTaskforUpdatepgBouncer := fun _ _ _ => rotate |}.

(** The clone service. *)

Import CloneService.

Definition newline : string := String (Ascii.ascii_of_nat 10) EmptyString.

(** [strings.Split(s, sep)] for a one-character separator. *)
Fixpoint splitOn (sep : ascii) (s : string) : list string :=
  match s with
  | EmptyString => [EmptyString]
  | String c s' =>
      if Ascii.eqb c sep then EmptyString :: splitOn sep s'
      else match splitOn sep s' with
           | piece :: pieces => String c piece :: pieces
           | [] => [String c EmptyString]
           end
  end.

(** An API server that reads a selector as a comma-separated list of
    [key=value] requirements, all of which the labels must meet. *)
Definition equalitySelector (selector : string) (labels : gmap string string)
  : bool :=
  forallb
    (fun term =>
       match splitOn "="%char term with
       | [key; value] => bool_decide (labels !! key = Some value)
       | _ => false
       end)
    (splitOn ","%char selector).

Definition sourceCluster : Pgcluster :=
  {| Cluster_Name := "a";
     Cluster_Namespace := "pgo";
     Cluster_Labels := ∅;
     Cluster_Annotations := ∅;
     Cluster_UserLabels := ∅ |}.

(** A clone of some cluster into [demo] that has not completed. *)
Definition pendingTask : Pgtask :=
  {| Task_Name := "demo-pgo-clone-step-1";
     Task_Labels :=
       {["pgo-clone" := "true"; "pg-cluster" := "demo";
         "workflowid" := "5e2d6a0c-1f4b-4c8e-9a57-0d3b9c1e7f42"]};
     Task_Spec :=
       {| Spec_Namespace := "pgo";
          Spec_Name := "demo-clone-step-1";
          Spec_TaskType := "clone-step1";
          Spec_Status := "in progress";
          Spec_Parameters := ∅ |} |}.

Definition worldWith (tasks : list (string * Pgtask)) : World :=
  {| pgclusters := [sourceCluster];
     pgtasks := tasks;
     selectorMatches := equalitySelector;
     apiFault := fun _ => None;
     uuidFile := ("1b4e28ba-2fa1-11d2-883f-0016d3cca427" +:+ newline, None);
     randString := fun _ => "kzwm";
     clock := "2020-05-04T10:15:00Z";
     asked := [] |}.

Definition freshWorld : World := worldWith [].
Definition busyWorld : World := worldWith [("pgo", pendingTask)].

Definition anyQuantity : string -> error := fun _ => None.
Definition anyStorage : string -> string -> bool -> error :=
  fun _ _ _ => None.

Definition cloneOf (source target : string) : CloneRequest :=
  {| SourceClusterName := source;
     TargetClusterName := target;
     PVCSize := "1Gi";
     BackrestPVCSize := "1Gi";
     BackrestStorageSource := EmptyString;
     EnableMetrics := false |}.

(** A pod whose container list is empty. *)
Definition bare : Pod :=
  {| Pod_Name := "hippo-0000"; Pod_Namespace := "pgo"; Pod_Containers := [] |}.

(** A cluster still marked as not upgraded, and one that already has the
    name a clone asks for. *)
Definition staleCluster : Pgcluster :=
  {| Cluster_Name := "old";
     Cluster_Namespace := "pgo";
     Cluster_Labels := ∅;
     Cluster_Annotations := {["is-upgraded" := "false"]};
     Cluster_UserLabels := ∅ |}.

Definition takenCluster : Pgcluster :=
  {| Cluster_Name := "taken";
     Cluster_Namespace := "pgo";
     Cluster_Labels := ∅;
     Cluster_Annotations := ∅;
     Cluster_UserLabels := ∅ |}.

(** A store with the three clusters and no task, an API server that fails
    the requests [fault] names, and an entropy file that reads as [file]. *)
Definition worldFailing (fault : ApiCall -> error) (file : string * error)
  : World :=
  {| pgclusters := [sourceCluster; staleCluster; takenCluster];
     pgtasks := [];
     selectorMatches := equalitySelector;
     apiFault := fault;
     uuidFile := file;
     randString := fun _ => "kzwm";
     clock := "2020-05-04T10:15:00Z";
     asked := [] |}.

Definition kernelUuid : string * error :=
  ("1b4e28ba-2fa1-11d2-883f-0016d3cca427" +:+ newline, None).

Definition noFault : ApiCall -> error := fun _ => None.

Definition failingLists : ApiCall -> error :=
  fun c =>
    match c with
    | PgtasksList _ _ => Some "the server is currently unable to handle the request"
    | _ => None
    end.

(** Creating the workflow record works, creating any other task does not. *)
Definition failingStepCreate : ApiCall -> error :=
  fun c =>
    match c with
    | PgtasksCreate _ task =>
        if String.eqb (Spec_TaskType (Task_Spec task)) "workflow" then None
        else Some "pgtasks.crunchydata.com is forbidden"
    | _ => None
    end.

Definition failingCreates : ApiCall -> error :=
  fun c =>
    match c with
    | PgtasksCreate _ _ => Some "pgtasks.crunchydata.com is forbidden"
    | _ => None
    end.

(** An entropy file that reads as a single byte. *)
Definition oneByte : string * error := (newline, None).

(** A first attempt to clone [a] into [b] whose clone-step-1 create the
    server refuses, and the world of the retry: the store as that attempt
    left it, a server that refuses nothing, and the next uuid. *)
Definition afterRefusedStep : World :=
  snd (Clone config anyQuantity anyStorage (cloneOf "a" "b") "pgo" "alice"
         (worldFailing failingStepCreate kernelUuid)).

Definition retryWorld : World :=
  {| pgclusters := pgclusters afterRefusedStep;
     pgtasks := pgtasks afterRefusedStep;
     selectorMatches := equalitySelector;
     apiFault := noFault;
     uuidFile := ("9f1c7a52-6d0e-4b7a-8c3d-2e5f4a1b0c9d" +:+ newline, None);
     randString := fun _ => "qhtx";
     clock := "2020-05-04T10:16:00Z";
     asked := [] |}.

(** Sizes must be given in [Gi]; anything else is refused. *)
Definition gibibytes : string -> error :=
  fun size =>
    if GoStrings.Contains size "Gi" then None
    else Some "quantities must match the regular expression".

End Samples.

(** * Properties *)

Import PodController Observe.

(** ** Strings *)

Lemma Contains_unfold (s substr : string) :
  GoStrings.Contains s substr =
  if GoStrings.HasPrefix s substr then true
  else match s with
       | EmptyString => false
       | String _ s' => GoStrings.Contains s' substr
       end.
Proof. destruct s; reflexivity. Qed.

Lemma HasPrefix_append (s rest : string) :
  GoStrings.HasPrefix (s +:+ rest) s = true.
Proof.
  induction s as [|c s IH]; simpl.
  - reflexivity.
  - rewrite Ascii.eqb_refl. exact IH.
Qed.

Lemma Contains_infix (before s after : string) :
  GoStrings.Contains (before +:+ s +:+ after) s = true.
Proof.
  induction before as [|c before IH].
  - change (EmptyString +:+ s +:+ after) with (s +:+ after).
    rewrite Contains_unfold, HasPrefix_append. reflexivity.
  - rewrite Contains_unfold.
    destruct (GoStrings.HasPrefix _ s); [reflexivity|]. exact IH.
Qed.

Lemma Contains_after (before s substr : string) :
  GoStrings.Contains s substr = true ->
  GoStrings.Contains (before +:+ s) substr = true.
Proof.
  intros H. induction before as [|c before IH]; [exact H|].
  rewrite Contains_unfold.
  destruct (GoStrings.HasPrefix _ substr); [reflexivity|]. exact IH.
Qed.

Lemma append_empty_r (s : string) : s +:+ EmptyString = s.
Proof.
  induction s as [|c s IH]; [reflexivity|].
  change (String c (s +:+ EmptyString) = String c s). f_equal. exact IH.
Qed.

Lemma Contains_suffix (before s : string) :
  GoStrings.Contains (before +:+ s) s = true.
Proof.
  pose proof (Contains_infix before s EmptyString) as H.
  rewrite append_empty_r in H. exact H.
Qed.

Lemma Contains_char (c : ascii) (s : string) :
  GoStrings.Contains s (String c EmptyString) = true <-> occurs c s.
Proof.
  induction s as [|d s IH].
  - split; [discriminate|].
    intros (before & after & H). destruct before; discriminate.
  - rewrite Contains_unfold. simpl GoStrings.HasPrefix.
    destruct (Ascii.eqb_spec d c) as [->|Hne].
    + split; [intros _|reflexivity].
      exists EmptyString, s. reflexivity.
    + rewrite IH. split.
      * intros (before & after & ->). exists (String d before), after.
        reflexivity.
      * intros (before & after & H). destruct before as [|b before].
        -- injection H as H _. contradiction.
        -- injection H as _ H. exists before, after. exact H.
Qed.

(** ** The promotion wait, tick by tick *)

Section WaitFacts.

Variable cfg : Config.
Variable parseJSON : string -> option Json.any.

Lemma leaderStatusCMD_not_recovery :
  bool_decide (leaderStatusCMD cfg = isInRecoveryCMD) = false.
Proof. apply bool_decide_eq_false. discriminate. Qed.

(** With the flag set, a tick neither clears it nor asks signal A. *)
Lemma pollOnce_disabled (newPod : Pod) (exec : Exec) :
  fst (pollOnce cfg parseJSON newPod exec true) <> Continue false
  /\ Forall (fun c => isRecoveryProbe c = false)
       (snd (pollOnce cfg parseJSON newPod exec true)).
Proof.
  unfold pollOnce, probeRecovery, probeLeader.
  destruct (Pod_Containers newPod) as [|c cs]; simpl.
  - split; [discriminate|constructor].
  - destruct (leaderReady _) as [[|]| |]; simpl;
      (split; [discriminate|]);
      repeat constructor; apply leaderStatusCMD_not_recovery.
Qed.

Lemma recoveryDisabledAfter_disabled (newPod : Pod) (deliveries : list fired) :
  recoveryDisabledAfter cfg parseJSON newPod true deliveries <> Some false.
Proof.
  induction deliveries as [|[t [exec|]] rest IH]; simpl; try discriminate.
  destruct (pollOnce_disabled newPod exec) as [Hflag _].
  destruct (fst (pollOnce cfg parseJSON newPod exec true)) as [[|]|];
    [exact IH|contradiction|discriminate].
Qed.

Lemma waitLoop_disabled_calls (newPod : Pod) (cluster : Pgcluster)
    (deliveries : list fired) :
  Forall (fun tc => isRecoveryProbe (snd tc) = false)
    (calls (waitLoop cfg parseJSON newPod cluster true deliveries)).
Proof.
  induction deliveries as [|[t [exec|]] rest IH]; simpl; try constructor.
  destruct (pollOnce_disabled newPod exec) as [Hflag Hcalls].
  destruct (pollOnce cfg parseJSON newPod exec true) as [[[|]|o] asked];
    simpl in *.
  - apply Forall_app. split; [|exact IH].
    apply Forall_map. exact Hcalls.
  - contradiction.
  - apply Forall_map. exact Hcalls.
Qed.

(** A run that is back at its [select] after [first] goes on from there. *)
Lemma waitLoop_app (newPod : Pod) (cluster : Pgcluster)
    (first later : list fired) (rd rd' : bool) :
  recoveryDisabledAfter cfg parseJSON newPod rd first = Some rd' ->
  exists before,
    calls (waitLoop cfg parseJSON newPod cluster rd (first ++ later))
    = before ++ calls (waitLoop cfg parseJSON newPod cluster rd' later)
    /\ result (waitLoop cfg parseJSON newPod cluster rd (first ++ later))
       = result (waitLoop cfg parseJSON newPod cluster rd' later)
    /\ finishedAt (waitLoop cfg parseJSON newPod cluster rd (first ++ later))
       = finishedAt (waitLoop cfg parseJSON newPod cluster rd' later)
    /\ recoveryDisabledAfter cfg parseJSON newPod rd (first ++ later)
       = recoveryDisabledAfter cfg parseJSON newPod rd' later.
Proof.
  revert rd. induction first as [|[t [exec|]] rest IH]; intros rd H.
  - injection H as ->. exists []. auto.
  - simpl in H. simpl.
    destruct (pollOnce cfg parseJSON newPod exec rd) as [[rd1|o] asked];
      simpl in *; [|discriminate].
    destruct (IH rd1 H) as (before & Hc & Hr & Hf & Hd).
    exists (map (pair t) asked ++ before).
    rewrite Hc, Hr, Hf, Hd, app_assoc. auto.
  - discriminate.
Qed.

End WaitFacts.

(** C3. Within one promotion wait [recoveryDisabled] is monotonic: once the
    is-in-recovery probe has reported not-in-recovery and the flag has become
    true, nothing the later ticks observe (whatever any probe prints, a
    transient [t] of signal A included) brings the flag back to false, and
    signal A is not asked again for the rest of that wait. *)
Theorem recoveryDisabled_monotonic
    (cfg : Config) (parseJSON : string -> option Json.any)
    (newPod : Pod) (cluster : Pgcluster) (first later : list fired) :
  recoveryDisabledAfter cfg parseJSON newPod false first = Some true ->
  recoveryDisabledAfter cfg parseJSON newPod false (first ++ later)
    <> Some false
  /\ exists before after,
       calls (waitForStandbyPromotion cfg parseJSON newPod cluster
                (first ++ later)) = before ++ after
       /\ after = calls (waitLoop cfg parseJSON newPod cluster true later)
       /\ Forall (fun tc => isRecoveryProbe (snd tc) = false) after.
Proof.
  intros H.
  destruct (waitLoop_app cfg parseJSON newPod cluster first later false true H)
    as (before & Hc & _ & _ & Hd).
  split.
  - rewrite Hd. apply recoveryDisabledAfter_disabled.
  - exists before, (calls (waitLoop cfg parseJSON newPod cluster true later)).
    repeat split; [exact Hc|]. apply waitLoop_disabled_calls.
Qed.

(** The flag is set by [" f"]; the next tick reads [" t"] again, and the wait
    only asks for the leader status then. *)
Lemma recoveryDisabled_monotonic_witness :
  recoveryDisabledAfter Samples.config Samples.parse Samples.pod false
    [{| at_ms := 500; what := Tick Samples.promoted |}] = Some true
  /\ recoveryDisabledAfter Samples.config Samples.parse Samples.pod false
       ([{| at_ms := 500; what := Tick Samples.promoted |}]
        ++ [{| at_ms := 1000; what := Tick Samples.relapsed |}])
     <> Some false.
Proof.
  split; [reflexivity|].
  apply (recoveryDisabled_monotonic Samples.config Samples.parse Samples.pod
           Samples.cluster
           [{| at_ms := 500; what := Tick Samples.promoted |}]
           [{| at_ms := 1000; what := Tick Samples.relapsed |}]).
  reflexivity.
Defined.

Section SignalA.

Variable cfg : Config.
Variable parseJSON : string -> option Json.any.

Lemma pollOnce_enabled (newPod : Pod) (exec : Exec) (c : Container)
    (cs : list Container) :
  Pod_Containers newPod = c :: cs ->
  (GoStrings.Contains (recoveryStdout newPod exec) "f" = false ->
   pollOnce cfg parseJSON newPod exec false
   = (Continue false,
      [ExecToPodThroughAPI isInRecoveryCMD (Container_Name c)
         (Pod_Name newPod) (Pod_Namespace newPod)]))
  /\ (GoStrings.Contains (recoveryStdout newPod exec) "f" = true ->
      fst (pollOnce cfg parseJSON newPod exec false) <> Continue false).
Proof.
  intros Hc. unfold pollOnce, probeRecovery, probeLeader, recoveryStdout.
  rewrite Hc. split; intros ->; [reflexivity|].
  destruct (leaderReady _) as [[|]| |]; discriminate.
Qed.

End SignalA.

(** C10. The decision that recovery is disabled is a substring test: on a
    tick that starts with the flag unset, the flag is set exactly when the
    stdout of the is-in-recovery probe has the character [f] somewhere, and a
    flag set that way stays for the rest of the wait. *)
Theorem recoveryDisabled_is_substring_test
    (cfg : Config) (parseJSON : string -> option Json.any)
    (newPod : Pod) (exec : Exec) (c : Container) (cs : list Container) :
  Pod_Containers newPod = c :: cs ->
  let stdout :=
    exec isInRecoveryCMD (Container_Name c) (Pod_Name newPod)
      (Pod_Namespace newPod) in
  (fst (probeRecovery newPod exec false) = Returns true
   <-> occurs "f"%char stdout)
  /\ (fst (pollOnce cfg parseJSON newPod exec false) = Continue false
      <-> ~ occurs "f"%char stdout)
  /\ (occurs "f"%char stdout ->
      forall (t : Z) (later : list fired),
        recoveryDisabledAfter cfg parseJSON newPod false
          ({| at_ms := t; what := Tick exec |} :: later) <> Some false).
Proof.
  intros Hc stdout.
  assert (Hout : recoveryStdout newPod exec = stdout)
    by (unfold recoveryStdout; rewrite Hc; reflexivity).
  destruct (pollOnce_enabled cfg parseJSON newPod exec c cs Hc) as [Hno Hyes].
  rewrite Hout in Hno, Hyes.
  pose proof (Contains_char "f"%char stdout) as Hchar.
  split; [|split].
  - unfold probeRecovery. rewrite Hc. fold stdout. simpl. rewrite <- Hchar.
    split; [intros [= ->]; reflexivity | intros ->; reflexivity].
  - rewrite <- Hchar. split.
    + intros Hcont Hf. exact (Hyes Hf Hcont).
    + intros Hnf. destruct (GoStrings.Contains stdout "f") eqn:E.
      * exfalso. apply Hnf. reflexivity.
      * rewrite (Hno eq_refl). reflexivity.
  - intros Hocc t later. apply Hchar in Hocc. specialize (Hyes Hocc).
    simpl.
    destruct (fst (pollOnce cfg parseJSON newPod exec false)) as [[|]|];
      [apply recoveryDisabledAfter_disabled|contradiction|discriminate].
Qed.

(** An error text that merely has an [f] in it sets the flag. *)
Lemma recoveryDisabled_is_substring_test_witness :
  Pod_Containers Samples.pod = [{| Container_Name := "database" |}]
  /\ (fst (probeRecovery Samples.pod Samples.deferred false) = Returns true
      <-> occurs "f"%char "ERROR: deferred").
Proof.
  split; [reflexivity|].
  apply (recoveryDisabled_is_substring_test Samples.config Samples.parse
           Samples.pod Samples.deferred {| Container_Name := "database" |} []).
  reflexivity.
Defined.

(** ** Signal B *)

Section SignalB.

Variable cfg : Config.
Variable parseJSON : string -> option Json.any.

(** A status text that does not parse, that is no object, or whose [state]
    is missing or no string equal to [running], leaves the tick not ready. *)
Lemma leaderReady_malformed (data : string) :
  (parseJSON data = None
   \/ (exists v, parseJSON data = Some v /\ forall fields, v <> Json.Map fields)
   \/ (exists fields, parseJSON data = Some (Json.Map fields)
       /\ Json.eqString (Json.index (Json.ofFields fields) "state") "running"
          = false)) ->
  leaderReady (fst (Json.UnmarshalMap parseJSON data)) = Returns false.
Proof.
  unfold Json.UnmarshalMap.
  intros [-> | [(v & -> & Hv) | (fields & -> & Hs)]].
  - reflexivity.
  - destruct v; try reflexivity. exfalso. exact (Hv fields eq_refl).
  - simpl. unfold leaderReady. rewrite Hs. reflexivity.
Qed.

Lemma pollOnce_malformed (newPod : Pod) (exec : Exec) (c : Container)
    (cs : list Container) :
  Pod_Containers newPod = c :: cs ->
  leaderReady (fst (Json.UnmarshalMap parseJSON (leaderStdout cfg newPod exec)))
  = Returns false ->
  pollOnce cfg parseJSON newPod exec true
  = (Continue true,
     [ExecToPodThroughAPI (leaderStatusCMD cfg) (Container_Name c)
        (Pod_Name newPod) (Pod_Namespace newPod)]).
Proof.
  intros Hc. unfold pollOnce, probeRecovery, probeLeader, leaderStdout.
  rewrite Hc. intros ->. reflexivity.
Qed.

(** A running leader whose [pending_restart] is neither absent, [null] nor a
    boolean makes the type assertion of line 130 panic. *)
Lemma pollOnce_illTyped (newPod : Pod) (exec : Exec) (c : Container)
    (cs : list Container) (fields : list (string * Json.any)) :
  Pod_Containers newPod = c :: cs ->
  parseJSON (leaderStdout cfg newPod exec) = Some (Json.Map fields) ->
  Json.index (Json.ofFields fields) "state" = Json.Str "running" ->
  Json.isNil (Json.index (Json.ofFields fields) "pending_restart") = false ->
  (forall b, Json.index (Json.ofFields fields) "pending_restart" <> Json.Bool b) ->
  fst (pollOnce cfg parseJSON newPod exec true)
  = Finished (Panics "interface conversion: interface {} is not bool").
Proof.
  intros Hc. unfold pollOnce, probeRecovery, probeLeader, leaderStdout.
  rewrite Hc. intros Hp Hs Hn Hb. unfold Json.UnmarshalMap. rewrite Hp.
  simpl. unfold leaderReady. rewrite Hs, Hn. simpl.
  destruct (Json.index (Json.ofFields fields) "pending_restart");
    try reflexivity; try discriminate.
  exfalso. exact (Hb b eq_refl).
Qed.

End SignalB.

(** C4. With [recoveryDisabled] set, a tick whose status payload is
    malformed should count as not ready. It does for a text that does not
    parse ([pollOnce_malformed]), but the payload
    [{"state":"running","pending_restart":"yes"}] makes the tick panic in the
    unchecked type assertion instead of going back to the [select]. *)
Theorem illTyped_pending_restart_panics :
  pollOnce Samples.config Samples.parse Samples.pod Samples.illTyped true
  = (Finished (Panics "interface conversion: interface {} is not bool"),
     [ExecToPodThroughAPI ["curl"; "localhost:8009/master"] "database"
        "hippo-7c9d" "pgo"])
  /\ result (waitForStandbyPromotion Samples.config Samples.parse Samples.pod
               Samples.cluster
               [{| at_ms := 500; what := Tick Samples.illTyped |};
                {| at_ms := 1000; what := Tick Samples.promoted |}])
     = Panics "interface conversion: interface {} is not bool"
  /\ fst (pollOnce Samples.config Samples.parse Samples.pod
            Samples.inRecovery true) = Continue true.
Proof. vm_compute. repeat split. Qed.

(** ** The deadline *)

Section DeadlineFacts.

Variable cfg : Config.
Variable parseJSON : string -> option Json.any.

(** A tick at which the readiness conditions do not hold goes back to the
    [select], having asked at least one probe; [recoveryDisabled] is set from
    then on when signal A reported the end of recovery. *)
Lemma pollOnce_idle (newPod : Pod) (exec : Exec) (rd : bool)
    (c : Container) (cs : list Container) :
  Pod_Containers newPod = c :: cs ->
  let disabled := rd || GoStrings.Contains (recoveryStdout newPod exec) "f" in
  disabled = false \/ leaderNotReady cfg parseJSON newPod exec ->
  exists call asked,
    pollOnce cfg parseJSON newPod exec rd = (Continue disabled, call :: asked).
Proof.
  intros Hc disabled H. subst disabled.
  destruct rd; cbn [orb] in *.
  - destruct H as [[=]|H].
    rewrite (pollOnce_malformed cfg parseJSON newPod exec c cs Hc H).
    eexists _, _. reflexivity.
  - destruct (GoStrings.Contains (recoveryStdout newPod exec) "f") eqn:E.
    + destruct H as [[=]|H]. revert H E.
      unfold leaderNotReady, leaderStdout, recoveryStdout, pollOnce,
        probeRecovery, probeLeader.
      rewrite Hc. intros -> ->.
      eexists _, _. reflexivity.
    + destruct (pollOnce_enabled cfg parseJSON newPod exec c cs Hc) as [Hno _].
      rewrite (Hno E).
      eexists _, _. reflexivity.
Qed.

(** Deliveries that are all ticks at which the readiness conditions fail:
    the loop is back at its [select] after them, and has asked at each. *)
Lemma waitLoop_idle (newPod : Pod) (cluster : Pgcluster)
    (c : Container) (cs : list Container) (ticks rest : list fired) :
  Pod_Containers newPod = c :: cs ->
  forall rd,
    noTickReady cfg parseJSON newPod rd ticks ->
    exists rd' made,
      result (waitLoop cfg parseJSON newPod cluster rd (ticks ++ rest))
      = result (waitLoop cfg parseJSON newPod cluster rd' rest)
      /\ finishedAt (waitLoop cfg parseJSON newPod cluster rd (ticks ++ rest))
         = finishedAt (waitLoop cfg parseJSON newPod cluster rd' rest)
      /\ calls (waitLoop cfg parseJSON newPod cluster rd (ticks ++ rest))
         = made ++ calls (waitLoop cfg parseJSON newPod cluster rd' rest)
      /\ (forall t call, In (t, call) made -> In t (map at_ms ticks))
      /\ (forall d, In d ticks -> exists call, In (at_ms d, call) made).
Proof.
  intros Hc. induction ticks as [|[t [exec|]] ticks IH]; intros rd H.
  - exists rd, []. simpl. repeat split; intros; contradiction.
  - cbn [noTickReady what] in H. destruct H as [Hq Htail].
    destruct (pollOnce_idle newPod exec rd c cs Hc Hq)
      as (call & asked & Hpoll).
    destruct (IH _ Htail) as (rd' & made & Hr & Hf & Hcalls & Hin & Hall).
    exists rd', (map (pair t) (call :: asked) ++ made).
    simpl app. simpl waitLoop. rewrite Hpoll. simpl.
    rewrite Hr, Hf, Hcalls.
    split; [reflexivity|]. split; [reflexivity|].
    split; [rewrite <- app_assoc; reflexivity|].
    split.
    + intros t' call' [Heq|Hin'].
      * injection Heq as <- _. left. reflexivity.
      * apply in_app_or in Hin'. destruct Hin' as [Hin'|Hin'].
        -- apply in_map_iff in Hin'. destruct Hin' as (? & [= <- _] & _).
           left. reflexivity.
        -- right. exact (Hin _ _ Hin').
    + intros d [<-|Hd].
      * exists call. left. reflexivity.
      * destruct (Hall d Hd) as (call' & Hcall'). exists call'.
        right. apply in_or_app. right. exact Hcall'.
  - contradiction.
Qed.

Lemma tickDeliveries_app (execs : nat -> Exec) (n m k : nat) :
  tickDeliveries execs k (n + m)
  = tickDeliveries execs k n ++ tickDeliveries execs (k + n) m.
Proof.
  revert k. induction n as [|n IH]; intros k; simpl.
  - rewrite Nat.add_0_r. reflexivity.
  - rewrite IH, Nat.add_succ_r. reflexivity.
Qed.

Lemma tickDeliveries_times (execs : nat -> Exec) (n k : nat) (t : Z) :
  In t (map at_ms (tickDeliveries execs k n))
  <-> exists j, (k <= j < k + n)%nat /\ t = tickPeriod_ms * Z.of_nat j.
Proof.
  revert k. induction n as [|n IH]; intros k; simpl.
  - split; [contradiction|]. intros (j & Hj & _). lia.
  - rewrite IH. split.
    + intros [<-|(j & Hj & ->)]; [exists k|exists j]; split; auto; lia.
    + intros (j & Hj & ->). destruct (Nat.eq_dec j k) as [->|Hne].
      * left. reflexivity.
      * right. exists j. split; [lia|reflexivity].
Qed.

(** The timers deliver the ticks 1 to 599, possibly tick 600, and then the
    deadline at 300 000 ms. *)
Lemma timerDeliveries_shape (tickFirst : bool) (execs : nat -> Exec) :
  exists n, (599 <= n <= 600)%nat
    /\ timerDeliveries tickFirst execs
       = tickDeliveries execs 1 n ++ [{| at_ms := 300000; what := Deadline |}].
Proof.
  unfold timerDeliveries.
  replace (Z.to_nat ((deadline_ms - 1) / tickPeriod_ms)) with 599%nat
    by (vm_compute; reflexivity).
  replace (deadline_ms mod tickPeriod_ms =? 0) with true
    by (vm_compute; reflexivity).
  replace deadline_ms with 300000 by reflexivity.
  destruct tickFirst; simpl andb; cbv iota.
  - exists 600%nat. split; [lia|].
    change 600%nat with (599 + 1)%nat at 2.
    rewrite tickDeliveries_app, <- app_assoc. reflexivity.
  - exists 599%nat. split; [lia|]. reflexivity.
Qed.

End DeadlineFacts.

(** C5, as stated, fails: the readiness conditions never hold, and the wait
    is still running after the 5 minutes. The probe of the tick received at
    299.5 s returns at 725 s; the loop cannot receive the timer's firing
    before that, and the timed-out error comes at 725 s. *)
Lemma deadline_received_after_stalled_probe :
  noTickReady Samples.config Samples.parse Samples.pod false
    [Samples.stalledTick]
  /\ result
       (waitForStandbyPromotion Samples.config Samples.parse Samples.pod
          Samples.cluster Samples.stalled)
     = Returns
         (Some
            "timed out waiting for cluster hippo to accept writes after disabling standby mode")
  /\ finishedAt
       (waitForStandbyPromotion Samples.config Samples.parse Samples.pod
          Samples.cluster Samples.stalled)
     = Some 725000
  /\ deadline_ms < 725000.
Proof.
  split; [split; [left; reflexivity|exact I]|].
  vm_compute. repeat split.
Qed.

(** C5, amended. A promotion wait at none of whose ticks the readiness
    conditions hold (at each, recovery is not yet reported over, or the
    leader status is evaluated as not ready) asks its probes at every tick it
    receives and has not returned after them; when its [select] receives the
    firing of the 5 minute timer it returns the timed-out error, whose
    message names the cluster, at the time of that receipt, and so does not
    succeed then or later. With the two timers at their own times, every
    probe completing within its tick, the ticks come at the multiples of
    500 ms and the error at 300 000 ms. *)
Theorem wait_times_out_on_receiving_deadline
    (cfg : Config) (parseJSON : string -> option Json.any)
    (newPod : Pod) (cluster : Pgcluster)
    (ticks : list fired) (t : Z) (later : list fired)
    (tickFirst : bool) (execs : nat -> Exec) :
  Pod_Containers newPod <> [] ->
  noTickReady cfg parseJSON newPod false ticks ->
  let wait := waitForStandbyPromotion cfg parseJSON newPod cluster in
  let r := wait (ticks ++ {| at_ms := t; what := Deadline |} :: later) in
  (result r = Returns (Some (timedOut cluster))
   /\ GoStrings.Contains (timedOut cluster) (Cluster_Name cluster) = true
   /\ finishedAt r = Some t
   /\ (forall d, In d ticks -> exists call, In (at_ms d, call) (calls r))
   /\ (forall t' call, In (t', call) (calls r) -> In t' (map at_ms ticks))
   /\ result (wait ticks) = Blocks)
  /\ ((forall n,
         noTickReady cfg parseJSON newPod false (tickDeliveries execs 1 n)) ->
      let r' := wait (timerDeliveries tickFirst execs) in
      result r' = Returns (Some (timedOut cluster))
      /\ finishedAt r' = Some 300000
      /\ (forall t' call, In (t', call) (calls r') ->
          exists j, 1 <= j <= 600 /\ t' = 500 * j)
      /\ (forall j, 1 <= j <= 599 ->
          exists call, In (500 * j, call) (calls r'))).
Proof.
  intros Hpod Hnever wait r.
  destruct (Pod_Containers newPod) as [|c cs] eqn:Hc; [contradiction|].
  split.
  - destruct (waitLoop_idle cfg parseJSON newPod cluster c cs ticks
                ({| at_ms := t; what := Deadline |} :: later) Hc false Hnever)
      as (rd' & made & Hr & Hf & Hcalls & Hin & Hall).
    destruct (waitLoop_idle cfg parseJSON newPod cluster c cs ticks []
                Hc false Hnever)
      as (rd0 & made0 & Hr0 & _).
    rewrite app_nil_r in Hr0.
    unfold r, wait, waitForStandbyPromotion. rewrite Hr, Hf, Hcalls, Hr0.
    cbn [waitLoop result finishedAt calls]. rewrite app_nil_r.
    split; [reflexivity|].
    split; [unfold timedOut; apply Contains_infix|].
    split; [reflexivity|].
    split; [exact Hall|]. split; [exact Hin|reflexivity].
  - intros Htimers r'.
    destruct (timerDeliveries_shape tickFirst execs) as (n & Hn & Hshape).
    destruct (waitLoop_idle cfg parseJSON newPod cluster c cs
                (tickDeliveries execs 1 n)
                [{| at_ms := 300000; what := Deadline |}] Hc false
                (Htimers n))
      as (rd' & made & Hr & Hf & Hcalls & Hin & Hall).
    unfold r', wait, waitForStandbyPromotion. rewrite Hshape, Hr, Hf, Hcalls.
    cbn [waitLoop result finishedAt calls]. rewrite app_nil_r.
    split; [reflexivity|]. split; [reflexivity|]. split.
    + intros t' call Ht. apply Hin, tickDeliveries_times in Ht.
      destruct Ht as (j & Hj & ->). exists (Z.of_nat j).
      split; [lia|reflexivity].
    + intros j Hj.
      assert (Hd : In (500 * j) (map at_ms (tickDeliveries execs 1 n))).
      { apply tickDeliveries_times. exists (Z.to_nat j).
        split; [lia|]. rewrite Z2Nat.id by lia. reflexivity. }
      apply in_map_iff in Hd. destruct Hd as (d & Hat & Hd).
      destruct (Hall d Hd) as (call & Hcall). exists call.
      rewrite <- Hat. exact Hcall.
Qed.

(** A pod that stays in recovery is ready at no tick of the ticker. *)
Lemma inRecovery_never_ready (n k : nat) :
  noTickReady Samples.config Samples.parse Samples.pod false
    (tickDeliveries (fun _ => Samples.inRecovery) k n).
Proof.
  revert k. induction n as [|n IH]; intros k; [exact I|].
  cbn [tickDeliveries noTickReady what].
  change (GoStrings.Contains
            (recoveryStdout Samples.pod Samples.inRecovery) "f") with false.
  split; [left; reflexivity|apply IH].
Qed.

(** The pod leaves recovery at its third tick and its leader is still
    starting at the fourth: the wait gives up when it receives the deadline.
    A pod that never leaves recovery, on the two timers: the wait gives up
    at 300 000 ms. *)
Lemma wait_times_out_on_receiving_deadline_witness :
  finishedAt
    (waitForStandbyPromotion Samples.config Samples.parse Samples.pod
       Samples.cluster
       (Samples.lateExit ++ [{| at_ms := 300000; what := Deadline |}]))
  = Some 300000
  /\ result
       (waitForStandbyPromotion Samples.config Samples.parse Samples.pod
          Samples.cluster (timerDeliveries false (fun _ => Samples.inRecovery)))
     = Returns (Some (timedOut Samples.cluster)).
Proof.
  destruct (wait_times_out_on_receiving_deadline Samples.config Samples.parse
              Samples.pod Samples.cluster Samples.lateExit 300000 [] false
              (fun _ => Samples.inRecovery))
    as [(_ & _ & Hat & _) Htimers].
  - discriminate.
  - repeat split; (left; reflexivity) || (right; reflexivity).
  - split; [exact Hat|].
    apply Htimers. intros n. apply inRecovery_never_ready.
Defined.

(** ** The post-failover backup orchestrator *)

(** C9. The pod count is checked before the lookup error: when the lookup
    fails, the orchestrator asks for nothing more; with an empty pod list (or
    any list whose length is not 1) the caller gets the pods-len message
    naming the cluster, not the lookup error, and the lookup error is what
    the caller gets only when the failed lookup still yields exactly one
    pod. *)
Theorem pod_count_checked_before_lookup_error
    (cfg : Config) (env : Env) (clusterName namespace : string)
    (pods : list Pod) (e : string) :
  answerGetPods env (repoSelector cfg clusterName) namespace = (pods, Some e) ->
  let r := cleanAndCreatePostFailoverBackup cfg env clusterName namespace in
  snd r = [GetPods (repoSelector cfg clusterName) namespace]
  /\ (pods = [] -> fst r = Returns (Some (podsLenError clusterName)))
  /\ (length pods <> 1%nat ->
      fst r = Returns (Some (podsLenError clusterName)))
  /\ (length pods = 1%nat -> fst r = Returns (Some e))
  /\ GoStrings.Contains (podsLenError clusterName) clusterName = true.
Proof.
  intros H r. unfold r, cleanAndCreatePostFailoverBackup. rewrite H.
  repeat split.
  - destruct pods as [|p [|q pods]]; reflexivity.
  - intros ->. reflexivity.
  - destruct pods as [|p [|q pods]]; simpl; intros Hl;
      [reflexivity|contradiction|reflexivity].
  - destruct pods as [|p [|q pods]]; simpl; intros Hl;
      [discriminate|reflexivity|discriminate].
  - apply Contains_suffix.
Qed.

(** A failed lookup with no pods: the store error is replaced. *)
Lemma pod_count_checked_before_lookup_error_witness :
  fst (cleanAndCreatePostFailoverBackup Samples.config
         (Samples.envWith ([], Some "connection refused") None None None)
         "hippo" "pgo")
  = Returns (Some "pods len != 1 for cluster hippo").
Proof.
  refine (proj1 (proj2
    (pod_count_checked_before_lookup_error Samples.config
       (Samples.envWith ([], Some "connection refused") None None None)
       "hippo" "pgo" [] "connection refused" _)) _); reflexivity.
Defined.

(** C2, as stated, fails: one pod is found, the cleanup is invoked and
    fails, and the creation is not invoked. *)
Lemma create_skipped_when_cleanup_fails :
  length (fst (answerGetPods
                 (Samples.envWith ([Samples.repoPod], None)
                    (Some "cleanup failed") None None)
                 (repoSelector Samples.config "hippo") "pgo")) = 1%nat
  /\ cleanAndCreatePostFailoverBackup Samples.config
       (Samples.envWith ([Samples.repoPod], None) (Some "cleanup failed")
          None None)
       "hippo" "pgo"
     = (Returns (Some "cleanup failed"),
        [GetPods "pg-cluster=hippo,pgo-backrest-repo=true" "pgo";
         CleanBackupResources "pgo" "hippo"])
  /\ filter (fun c => isBackupCall c = true)
       (snd (cleanAndCreatePostFailoverBackup Samples.config
               (Samples.envWith ([Samples.repoPod], None)
                  (Some "cleanup failed") None None)
               "hippo" "pgo"))
     = [CleanBackupResources "pgo" "hippo"].
Proof. vm_compute. repeat split. Qed.

(** C2, amended. When the lookup returns exactly one pod and no error, the
    cleanup is invoked first; when it succeeds the post-failover backup is
    created next, for that pod, and when it fails its error is returned and
    nothing is created. When the lookup returns no pod or more than one,
    neither cleanup nor creation is invoked and the error names the
    cluster. *)
Theorem orchestrator_cleanup_then_create
    (cfg : Config) (env : Env) (clusterName namespace : string)
    (pods : list Pod) (err : error) :
  answerGetPods env (repoSelector cfg clusterName) namespace = (pods, err) ->
  let r := cleanAndCreatePostFailoverBackup cfg env clusterName namespace in
  let lookup := GetPods (repoSelector cfg clusterName) namespace in
  let cleanup := CleanBackupResources namespace clusterName in
  (forall repo, pods = [repo] -> err = None ->
     (answerCleanBackupResources env namespace clusterName = None ->
      r = (Returns (answerCreatePostFailoverBackup env namespace clusterName
                      (Pod_Name repo)),
           [lookup; cleanup;
            CreatePostFailoverBackup namespace clusterName (Pod_Name repo)]))
     /\ (forall e,
           answerCleanBackupResources env namespace clusterName = Some e ->
           r = (Returns (Some e), [lookup; cleanup])))
  /\ (length pods <> 1%nat ->
      r = (Returns (Some (podsLenError clusterName)), [lookup])
      /\ GoStrings.Contains (podsLenError clusterName) clusterName = true).
Proof.
  intros H r lookup cleanup. unfold r, cleanAndCreatePostFailoverBackup.
  rewrite H. split.
  - intros repo -> ->. split.
    + intros ->. reflexivity.
    + intros e ->. reflexivity.
  - intros Hl. split.
    + destruct pods as [|p [|q pods]]; simpl in *;
        [reflexivity|contradiction|reflexivity].
    + apply Contains_suffix.
Qed.

(** One repository pod and a working backup subsystem. *)
Lemma orchestrator_cleanup_then_create_witness :
  cleanAndCreatePostFailoverBackup Samples.config
    (Samples.envWith ([Samples.repoPod], None) None None None) "hippo" "pgo"
  = (Returns None,
     [GetPods "pg-cluster=hippo,pgo-backrest-repo=true" "pgo";
      CleanBackupResources "pgo" "hippo";
      CreatePostFailoverBackup "pgo" "hippo"
        "hippo-backrest-shared-repo-5f6b"]).
Proof.
  refine (proj1 (proj1
    (orchestrator_cleanup_then_create Samples.config
       (Samples.envWith ([Samples.repoPod], None) None None None)
       "hippo" "pgo" [Samples.repoPod] None _)
    Samples.repoPod _ _) _); reflexivity.
Defined.

(** ** The standby promotion handler *)

Section HandlerFacts.

Variable cfg : Config.
Variable parseJSON : string -> option Json.any.

Lemma pollOnce_calls_are_probes (newPod : Pod) (exec : Exec) (rd : bool) :
  Forall (fun c => stepOf c = 1%nat)
    (snd (pollOnce cfg parseJSON newPod exec rd)).
Proof.
  unfold pollOnce, probeRecovery, probeLeader.
  destruct rd, (Pod_Containers newPod) as [|c cs]; simpl;
    try (repeat constructor; fail).
  - destruct (leaderReady _) as [[|]| |]; repeat constructor.
  - destruct (GoStrings.Contains _ "f"); [|repeat constructor].
    destruct (leaderReady _) as [[|]| |]; repeat constructor.
Qed.

Lemma waitLoop_calls_are_probes (newPod : Pod) (cluster : Pgcluster)
    (rd : bool) (deliveries : list fired) :
  Forall (fun c => stepOf c = 1%nat)
    (map snd (calls (waitLoop cfg parseJSON newPod cluster rd deliveries))).
Proof.
  revert rd. induction deliveries as [|[t [exec|]] rest IH]; intros rd;
    simpl; try constructor.
  pose proof (pollOnce_calls_are_probes newPod exec rd) as Hp.
  destruct (pollOnce cfg parseJSON newPod exec rd) as [[rd'|o] asked];
    simpl in *.
  - rewrite map_app. apply Forall_app. split; [|apply IH].
    rewrite map_map. simpl. rewrite map_id. exact Hp.
  - rewrite map_map. simpl. rewrite map_id. exact Hp.
Qed.

Lemma backup_calls_are_backup (env : Env) (clusterName namespace : string) :
  Forall (fun c => stepOf c = 3%nat)
    (snd (cleanAndCreatePostFailoverBackup cfg env clusterName namespace)).
Proof.
  unfold cleanAndCreatePostFailoverBackup.
  destruct (answerGetPods env _ namespace) as [[|p [|q pods]] [e|]];
    try (repeat constructor; fail).
  destruct (answerCleanBackupResources env namespace clusterName);
    repeat constructor.
Qed.

End HandlerFacts.

(** C6. The standby handler does its steps in one order: the promotion
    wait; then, only when the cluster's pgBouncer label reads [true], the
    creation of the password rotation task, whose parameters name the
    cluster; then the backup orchestration. A step that does not return nil
    ends the handler with that step's result, and no later step is begun. *)
Theorem standby_promotion_steps_in_order
    (cfg : Config) (parseJSON : string -> option Json.any) (env : Env)
    (deliveries : list fired) (newPod : Pod) (cluster : Pgcluster) :
  let waited :=
    waitForStandbyPromotion cfg parseJSON newPod cluster deliveries in
  let probes := map snd (calls waited) in
  let parameters := rotationParameters cfg cluster in
  let rotation :=
    CreatePgTaskforUpdatepgBouncer cluster EmptyString parameters in
  let backup :=
    cleanAndCreatePostFailoverBackup cfg env (Cluster_Name cluster)
      (Cluster_Namespace cluster) in
  let enabled :=
    GoStrings.index (Cluster_Labels cluster) (LABEL_PGBOUNCER cfg) in
  let r := handleStandbyPromotion cfg parseJSON env deliveries newPod cluster in
  (result waited <> Returns None -> r = (result waited, probes))
  /\ (result waited = Returns None -> enabled <> "true" ->
      r = (fst backup, probes ++ snd backup))
  /\ (result waited = Returns None -> enabled = "true" ->
      (forall e,
         answerCreatePgTaskforUpdatepgBouncer env cluster EmptyString parameters
         = Some e ->
         r = (Returns (Some e), probes ++ [rotation]))
      /\ (answerCreatePgTaskforUpdatepgBouncer env cluster EmptyString
            parameters = None ->
          r = (fst backup, probes ++ [rotation] ++ snd backup)))
  /\ parameters !! LABEL_PGBOUNCER_TASK_CLUSTER cfg = Some (Cluster_Name cluster)
  /\ Forall (fun c => stepOf c = 1%nat) probes
  /\ stepOf rotation = 2%nat
  /\ Forall (fun c => stepOf c = 3%nat) (snd backup).
Proof.
  intros waited probes parameters rotation backup enabled r.
  unfold r, handleStandbyPromotion.
  fold waited. fold probes. fold parameters. fold rotation. fold enabled.
  fold backup.
  split; [|split; [|split; [|split; [|split; [|split]]]]].
  - intros Hw. destruct (result waited) as [[e|]| |];
      [reflexivity|contradiction|reflexivity|reflexivity].
  - intros -> Hl. apply String.eqb_neq in Hl. rewrite Hl.
    destruct backup. reflexivity.
  - intros -> Hl. apply String.eqb_eq in Hl. rewrite Hl. split.
    + intros e ->. reflexivity.
    + intros ->. destruct backup. reflexivity.
  - unfold parameters, rotationParameters. apply lookup_insert_eq.
  - apply waitLoop_calls_are_probes.
  - reflexivity.
  - apply backup_calls_are_backup.
Qed.

(** The leader is writable at the first tick, the rotation task cannot be
    created: the handler stops there, before the backup orchestration. *)
Lemma standby_promotion_steps_in_order_witness :
  handleStandbyPromotion Samples.config Samples.parse
    (Samples.envWith ([Samples.repoPod], None) None None
       (Some "pgtasks is forbidden"))
    [{| at_ms := 500; what := Tick Samples.writable |}]
    Samples.pod Samples.cluster
  = (Returns (Some "pgtasks is forbidden"),
     map snd
       (calls
          (waitForStandbyPromotion Samples.config Samples.parse Samples.pod
             Samples.cluster
             [{| at_ms := 500; what := Tick Samples.writable |}]))
     ++ [CreatePgTaskforUpdatepgBouncer Samples.cluster EmptyString
           (rotationParameters Samples.config Samples.cluster)]).
Proof.
  refine (proj1 (proj1 (proj2 (proj2
    (standby_promotion_steps_in_order Samples.config Samples.parse
       (Samples.envWith ([Samples.repoPod], None) None None
          (Some "pgtasks is forbidden"))
       [{| at_ms := 500; what := Tick Samples.writable |}]
       Samples.pod Samples.cluster))) _ _) "pgtasks is forbidden" _);
    reflexivity.
Defined.

(** ** The clone service *)

Import CloneService.

(** Logging a request changes nothing a later request reads. *)
Lemma lookupCluster_logged (c : ApiCall) (w : World) (namespace name : string) :
  lookupCluster (logged c w) namespace name = lookupCluster w namespace name.
Proof. reflexivity. Qed.

Lemma selectTasks_logged (c : ApiCall) (w : World)
    (namespace selector : string) :
  selectTasks (logged c w) namespace selector
  = selectTasks w namespace selector.
Proof. reflexivity. Qed.

Lemma apiFault_logged (c : ApiCall) (w : World) :
  apiFault (logged c w) = apiFault w.
Proof. reflexivity. Qed.

Lemma apiFault_stored (namespace : string) (task : Pgtask) (w : World) :
  apiFault (stored namespace task w) = apiFault w.
Proof. reflexivity. Qed.

Lemma uuidFile_logged (c : ApiCall) (w : World) :
  uuidFile (logged c w) = uuidFile w.
Proof. reflexivity. Qed.

Lemma randString_logged (c : ApiCall) (w : World) :
  randString (logged c w) = randString w.
Proof. reflexivity. Qed.

Lemma clock_logged (c : ApiCall) (w : World) : clock (logged c w) = clock w.
Proof. reflexivity. Qed.

Lemma clock_stored (namespace : string) (task : Pgtask) (w : World) :
  clock (stored namespace task w) = clock w.
Proof. reflexivity. Qed.

(** Unfolds the monad and its requests, leaving the worlds as they are. *)
Ltac run_clone :=
  unfold Clone, createWorkflowTask, bind, ret, Pgclusters_Get, Pgtasks_List,
    Pgtasks_Create, ioutil_ReadFile, RandStringBytesRmndr, time_Now;
  cbv beta iota.

Ltac settle :=
  repeat rewrite ?lookupCluster_logged, ?selectTasks_logged, ?apiFault_logged,
    ?apiFault_stored, ?uuidFile_logged, ?randString_logged, ?clock_logged,
    ?clock_stored.

Lemma validate_empty_target (cfg : Config) (ValidateQuantity : string -> error)
    (ValidateStorage : string -> string -> bool -> error)
    (request : CloneRequest) (cluster : Pgcluster) :
  TargetClusterName request = EmptyString ->
  exists err,
    validateCloneRequest cfg ValidateQuantity ValidateStorage request cluster
    = Some err.
Proof.
  intros H. unfold validateCloneRequest. rewrite H.
  destruct (String.eqb (SourceClusterName request) EmptyString);
    eexists; reflexivity.
Qed.

(** C1, as stated, fails: the request without a target is rejected, but only
    after the source cluster has been read from the store. *)
Lemma source_is_read_before_validation :
  TargetClusterName (Samples.cloneOf "a" EmptyString) = EmptyString
  /\ fst (Clone Samples.config Samples.anyQuantity Samples.anyStorage
            (Samples.cloneOf "a" EmptyString) "pgo" "alice" Samples.freshWorld)
     = Returns
         {| Status_Code := Error;
            Status_Msg := "the target cluster name must be set";
            Response_TargetClusterName := EmptyString;
            Response_WorkflowID := EmptyString |}
  /\ List.filter isStoreCall
       (asked
          (snd (Clone Samples.config Samples.anyQuantity Samples.anyStorage
                  (Samples.cloneOf "a" EmptyString) "pgo" "alice"
                  Samples.freshWorld)))
     = [PgclustersGet "pgo" "a"].
Proof. vm_compute. repeat split. Qed.

(** C1, amended. A clone request whose target name is empty gets an
    Error-status response; the one request made of the resource store is the
    get of the source cluster, which comes before the validation, and nothing
    is listed, created or deleted, so the stored records are as before. *)
Theorem clone_rejects_empty_target
    (cfg : Config) (ValidateQuantity : string -> error)
    (ValidateStorage : string -> string -> bool -> error)
    (request : CloneRequest) (namespace pgouser : string) (w : World) :
  TargetClusterName request = EmptyString ->
  exists response w',
    Clone cfg ValidateQuantity ValidateStorage request namespace pgouser w
    = (Returns response, w')
    /\ Status_Code response = Error
    /\ asked w'
       = asked w ++ [PgclustersGet namespace (SourceClusterName request)]
    /\ pgclusters w' = pgclusters w
    /\ pgtasks w' = pgtasks w.
Proof.
  intros H. run_clone.
  destruct (lookupCluster w namespace (SourceClusterName request))
    as [source|err].
  - destruct (validate_empty_target cfg ValidateQuantity ValidateStorage
                request source H) as (err & ->).
    eexists _, _. repeat split.
  - eexists _, _. repeat split.
Qed.

Lemma clone_rejects_empty_target_witness :
  exists response w',
    Clone Samples.config Samples.anyQuantity Samples.anyStorage
      (Samples.cloneOf "a" EmptyString) "pgo" "alice" Samples.freshWorld
    = (Returns response, w')
    /\ Status_Code response = Error
    /\ asked w' = asked Samples.freshWorld ++ [PgclustersGet "pgo" "a"]
    /\ pgclusters w' = pgclusters Samples.freshWorld
    /\ pgtasks w' = pgtasks Samples.freshWorld.
Proof.
  apply (clone_rejects_empty_target Samples.config Samples.anyQuantity
           Samples.anyStorage (Samples.cloneOf "a" EmptyString) "pgo" "alice"
           Samples.freshWorld).
  reflexivity.
Defined.

(** Closes a branch in which [Clone] has answered before its conflict check:
    the response is an error, nothing was created, and the branch is at odds
    with having passed the earlier checks. *)
Ltac rejected :=
  split; [reflexivity|]; split; [reflexivity|]; split; [reflexivity|];
  split; [reflexivity|];
  split; [unfold logged; simpl; rewrite <- ?app_assoc; reflexivity|];
  split; [repeat constructor|];
  intros;
  repeat match goal with H : exists _, _ |- _ => destruct H end;
  congruence.

(** C7, as stated, fails: a pending clone task for [demo] is in the store,
    but the request names a source cluster that does not exist, and the
    error it gets is about the source and does not name the task. *)
Lemma conflict_unnamed_when_source_is_missing :
  (exists items,
     selectTasks Samples.busyWorld "pgo"
       (cloneSelector Samples.config (Samples.cloneOf "ghost" "demo"))
     = inl items
     /\ find (isPending Samples.config) items = Some Samples.pendingTask)
  /\ fst (Clone Samples.config Samples.anyQuantity Samples.anyStorage
            (Samples.cloneOf "ghost" "demo") "pgo" "alice" Samples.busyWorld)
     = Returns
         {| Status_Code := Error;
            Status_Msg :=
              "Could not get cluster: pgclusters.crunchydata.com ghost not found";
            Response_TargetClusterName := EmptyString;
            Response_WorkflowID := EmptyString |}
  /\ GoStrings.Contains
       "Could not get cluster: pgclusters.crunchydata.com ghost not found"
       (Spec_Name (Task_Spec Samples.pendingTask)) = false.
Proof.
  split; [|split; vm_compute; reflexivity].
  exists [Samples.pendingTask]. split; vm_compute; reflexivity.
Qed.

(** C7, amended. When the clone-labeled tasks listed for the target hold one
    whose status is not completed, the request gets an Error-status response
    and creates neither a workflow record nor a task: the stored records are
    as before. When the request has come as far as the conflict check (the
    source cluster is found, upgraded, the request valid and the target not
    found), the message names the first such task and advises to delete
    it. *)
Theorem clone_rejects_ongoing_clone
    (cfg : Config) (ValidateQuantity : string -> error)
    (ValidateStorage : string -> string -> bool -> error)
    (request : CloneRequest) (namespace pgouser : string) (w : World)
    (items : list Pgtask) (task : Pgtask) :
  selectTasks w namespace (cloneSelector cfg request) = inl items ->
  find (isPending cfg) items = Some task ->
  exists response w' made,
    Clone cfg ValidateQuantity ValidateStorage request namespace pgouser w
    = (Returns response, w')
    /\ Status_Code response = Error
    /\ pgtasks w' = pgtasks w
    /\ pgclusters w' = pgclusters w
    /\ asked w' = asked w ++ made
    /\ Forall (fun c => isCreate c = false) made
    /\ (forall source,
          lookupCluster w namespace (SourceClusterName request) = inl source ->
          validateCloneRequest cfg ValidateQuantity ValidateStorage request
            source = None ->
          GoStrings.index (Cluster_Annotations source)
            (ANNOTATION_IS_UPGRADED cfg) <> ANNOTATIONS_FALSE cfg ->
          (exists err,
             lookupCluster w namespace (TargetClusterName request) = inr err) ->
          Status_Msg response = ongoingCloneMsg task
          /\ GoStrings.Contains (Status_Msg response)
               (Spec_Name (Task_Spec task)) = true
          /\ GoStrings.Contains (Status_Msg response)
               "try deleting this pgtask CRD" = true).
Proof.
  intros Hlist Hfind. run_clone.
  destruct (lookupCluster w namespace (SourceClusterName request))
    as [source|err] eqn:Hsource.
  2: { eexists _, _, [_]. rejected. }
  destruct (validateCloneRequest cfg ValidateQuantity ValidateStorage request
              source) as [err|] eqn:Hvalid.
  { eexists _, _, [_]. rejected. }
  destruct (String.eqb _ (ANNOTATIONS_FALSE cfg)) eqn:Hup.
  { apply String.eqb_eq in Hup. eexists _, _, [_]. rejected. }
  settle.
  destruct (lookupCluster w namespace (TargetClusterName request))
    as [target|err] eqn:Htarget.
  { eexists _, _, [_; _]. rejected. }
  settle. rewrite Hlist. cbv beta iota. rewrite Hfind.
  eexists _, _, [_; _; _]. split; [reflexivity|].
  split; [reflexivity|]. split; [reflexivity|]. split; [reflexivity|].
  split; [unfold logged; simpl; rewrite <- !app_assoc; reflexivity|].
  split; [repeat constructor|].
  intros _ _ _ _ _. simpl Status_Msg. split; [reflexivity|].
  unfold ongoingCloneMsg. split.
  - apply Contains_infix.
  - apply Contains_after, Contains_after. reflexivity.
Qed.

(** A second clone into [demo] while the first is in progress. *)
Lemma clone_rejects_ongoing_clone_witness :
  exists response,
    fst (Clone Samples.config Samples.anyQuantity Samples.anyStorage
           (Samples.cloneOf "a" "demo") "pgo" "alice" Samples.busyWorld)
    = Returns response
    /\ Status_Code response = Error
    /\ Status_Msg response = ongoingCloneMsg Samples.pendingTask.
Proof.
  destruct (clone_rejects_ongoing_clone Samples.config Samples.anyQuantity
              Samples.anyStorage (Samples.cloneOf "a" "demo") "pgo" "alice"
              Samples.busyWorld [Samples.pendingTask] Samples.pendingTask
              ltac:(vm_compute; reflexivity) ltac:(vm_compute; reflexivity))
    as (response & w' & made & Hrun & Hcode & _ & _ & _ & _ & Hmsg).
  exists response. rewrite Hrun. split; [reflexivity|]. split; [exact Hcode|].
  apply (Hmsg Samples.sourceCluster).
  - vm_compute. reflexivity.
  - vm_compute. reflexivity.
  - vm_compute. discriminate.
  - eexists. vm_compute. reflexivity.
Defined.

(** ** A clone that goes through *)

Section Enqueue.

Variable cfg : Config.

Lemma dropLast_nonempty (u : string) :
  (2 <= String.length u)%nat -> dropLast u <> EmptyString.
Proof.
  destruct u as [|a [|b u]]; simpl; intros H; try lia. discriminate.
Qed.

Lemma filter_unlabelled (keep : Pgtask -> bool) (id : string)
    (tasks : list (string * Pgtask)) :
  (forall task, labelled (PgtaskWorkflowID cfg) id task = false ->
                keep task = false) ->
  Forall (fun nt => labelled (PgtaskWorkflowID cfg) id (snd nt) = false) tasks ->
  List.filter keep (map snd tasks) = [].
Proof.
  intros Hkeep. induction 1 as [|nt tasks Hnt _ IH]; simpl; [reflexivity|].
  rewrite (Hkeep _ Hnt). exact IH.
Qed.

Lemma workflowTask_labels (target uid namespace id now : string) :
  LABEL_PG_CLUSTER cfg <> PgtaskWorkflowID cfg ->
  labelled (LABEL_PG_CLUSTER cfg) target
    (workflowTask cfg target uid namespace id now) = true
  /\ labelled (PgtaskWorkflowID cfg) id
       (workflowTask cfg target uid namespace id now) = true.
Proof.
  intros Hne. unfold labelled, workflowTask. simpl.
  split; apply bool_decide_eq_true.
  - rewrite lookup_insert_ne by congruence. apply lookup_singleton_eq.
  - apply lookup_insert_eq.
Qed.

Lemma CloneTask_Create_labels (clone : CloneTask) :
  LABEL_PG_CLUSTER cfg <> PgtaskWorkflowID cfg ->
  labelled (LABEL_PG_CLUSTER cfg) (CT_TargetClusterName clone)
    (CloneTask_Create cfg clone) = true
  /\ labelled (PgtaskWorkflowID cfg) (CT_WorkflowID clone)
       (CloneTask_Create cfg clone) = true.
Proof.
  intros Hne. unfold labelled, CloneTask_Create. simpl.
  split; apply bool_decide_eq_true.
  - rewrite lookup_insert_ne by congruence. apply lookup_insert_eq.
  - apply lookup_insert_eq.
Qed.

End Enqueue.

(** C8, as stated, fails, in two ways. The source [a] exists and is
    upgraded, the target [b] does not exist, validation passes, no clone task
    is pending for [b] and every write succeeds; yet, first, with an entropy
    file of a single byte the response is Ok and its workflow identifier is
    empty; and second, on the retry of a clone whose clone-step-1 create the
    server had refused, the Ok response leaves two workflow records for
    [b]: the one of the refused attempt, which nothing removes, and the new
    one. *)
Lemma clone_ok_with_empty_id_or_two_records :
  fst (Clone Samples.config Samples.anyQuantity Samples.anyStorage
         (Samples.cloneOf "a" "b") "pgo" "alice"
         (Samples.worldFailing Samples.noFault Samples.oneByte))
  = Returns {| Status_Code := Ok; Status_Msg := EmptyString;
               Response_TargetClusterName := "b";
               Response_WorkflowID := EmptyString |}
  /\ Status_Code
       (match fst (Clone Samples.config Samples.anyQuantity Samples.anyStorage
                     (Samples.cloneOf "a" "b") "pgo" "alice"
                     (Samples.worldFailing Samples.failingStepCreate
                        Samples.kernelUuid)) with
        | Returns response => response
        | _ => {| Status_Code := Ok; Status_Msg := EmptyString;
                  Response_TargetClusterName := EmptyString;
                  Response_WorkflowID := EmptyString |}
        end)
     = Error
  /\ selectTasks Samples.retryWorld "pgo"
       (cloneSelector Samples.config (Samples.cloneOf "a" "b"))
     = inl []
  /\ fst (Clone Samples.config Samples.anyQuantity Samples.anyStorage
            (Samples.cloneOf "a" "b") "pgo" "alice" Samples.retryWorld)
     = Returns {| Status_Code := Ok; Status_Msg := EmptyString;
                  Response_TargetClusterName := "b";
                  Response_WorkflowID :=
                    "9f1c7a52-6d0e-4b7a-8c3d-2e5f4a1b0c9d" |}
  /\ length
       (CloneObserve.workflowRecordsFor Samples.config "b"
          (snd (Clone Samples.config Samples.anyQuantity Samples.anyStorage
                  (Samples.cloneOf "a" "b") "pgo" "alice" Samples.retryWorld)))
     = 2%nat
  /\ length
       (List.filter (isCloneStep1 Samples.config "b"
                       "9f1c7a52-6d0e-4b7a-8c3d-2e5f4a1b0c9d")
          (map snd
             (pgtasks
                (snd (Clone Samples.config Samples.anyQuantity
                        Samples.anyStorage (Samples.cloneOf "a" "b") "pgo"
                        "alice" Samples.retryWorld)))))
     = 1%nat.
Proof. vm_compute. repeat split. Qed.

(** C8, amended. A clone request whose source cluster exists and is
    upgraded, whose target does not exist, that passes validation and meets
    no pending clone task, whose entropy file is read without error and
    holds at least two bytes, and whose two creates succeed, gets an Ok
    response with the request's target name and a workflow identifier that
    is not empty: the file's content less its last byte. Afterwards the
    store holds what it held, plus exactly two tasks: one workflow record
    and one clone-step-1 task, both labeled for the target and with that
    identifier. When no task held before carries the identifier, these two
    are the only workflow record and the only clone-step-1 task under it. *)
Theorem clone_enqueues_workflow_and_first_step
    (cfg : Config) (ValidateQuantity : string -> error)
    (ValidateStorage : string -> string -> bool -> error)
    (request : CloneRequest) (namespace pgouser : string) (w : World)
    (source : Pgcluster) (notFound : string) (items : list Pgtask)
    (u : string) :
  LABEL_PG_CLUSTER cfg <> PgtaskWorkflowID cfg ->
  PgtaskWorkflow cfg <> PgtaskCloneStep1 cfg ->
  lookupCluster w namespace (SourceClusterName request) = inl source ->
  validateCloneRequest cfg ValidateQuantity ValidateStorage request source
  = None ->
  GoStrings.index (Cluster_Annotations source) (ANNOTATION_IS_UPGRADED cfg)
  <> ANNOTATIONS_FALSE cfg ->
  lookupCluster w namespace (TargetClusterName request) = inr notFound ->
  selectTasks w namespace (cloneSelector cfg request) = inl items ->
  find (isPending cfg) items = None ->
  uuidFile w = (u, None) ->
  (2 <= String.length u)%nat ->
  let target := TargetClusterName request in
  let id := dropLast u in
  let record :=
    workflowTask cfg target (randString w 4) namespace id (clock w) in
  let step :=
    CloneTask_Create cfg
      {| CT_BackrestPVCSize := BackrestPVCSize request;
         CT_BackrestStorageSource := BackrestStorageSource request;
         CT_EnableMetrics := EnableMetrics request;
         CT_PGOUser := pgouser;
         CT_PVCSize := PVCSize request;
         CT_SourceClusterName := SourceClusterName request;
         CT_TargetClusterName := target;
         CT_TaskStepLabel := LABEL_PGO_CLONE_STEP_1 cfg;
         CT_TaskType := PgtaskCloneStep1 cfg;
         CT_Timestamp := clock w;
         CT_WorkflowID := id |} in
  apiFault w (PgtasksCreate namespace record) = None ->
  apiFault w (PgtasksCreate namespace step) = None ->
  exists w',
    Clone cfg ValidateQuantity ValidateStorage request namespace pgouser w
    = (Returns {| Status_Code := Ok; Status_Msg := EmptyString;
                  Response_TargetClusterName := target;
                  Response_WorkflowID := id |}, w')
    /\ id <> EmptyString
    /\ pgclusters w' = pgclusters w
    /\ pgtasks w' = pgtasks w ++ [(namespace, record); (namespace, step)]
    /\ Spec_TaskType (Task_Spec record) = PgtaskWorkflow cfg
    /\ Spec_TaskType (Task_Spec step) = PgtaskCloneStep1 cfg
    /\ List.filter (isWorkflowRecord cfg target id) [record; step] = [record]
    /\ List.filter (isCloneStep1 cfg target id) [record; step] = [step]
    /\ (Forall (fun nt => labelled (PgtaskWorkflowID cfg) id (snd nt) = false)
          (pgtasks w) ->
        List.filter (isWorkflowRecord cfg target id) (map snd (pgtasks w'))
        = [record]
        /\ List.filter (isCloneStep1 cfg target id) (map snd (pgtasks w'))
           = [step]).
Proof.
  intros Hkeys Htypes Hsource Hvalid Hup Htarget Hlist Hfind Huuid Hlen
    target id record step Hrecord Hstep.
  pose proof (dropLast_nonempty u Hlen) as Hid.
  assert (Hr : labelled (LABEL_PG_CLUSTER cfg) target record = true
               /\ labelled (PgtaskWorkflowID cfg) id record = true)
    by (apply (workflowTask_labels cfg); exact Hkeys).
  destruct Hr as [Hr1 Hr2].
  assert (Hs : labelled (LABEL_PG_CLUSTER cfg) target step = true
               /\ labelled (PgtaskWorkflowID cfg) id step = true)
    by (apply (CloneTask_Create_labels cfg); exact Hkeys).
  destruct Hs as [Hs1 Hs2].
  apply String.eqb_neq in Hup.
  assert (Hslice : forall w0, sliceToLast u w0 = (Returns id, w0)).
  { intros w0. destruct u; [simpl in Hlen; lia|reflexivity]. }
  assert (Hadded :
    List.filter (isWorkflowRecord cfg target id) [record; step] = [record]
    /\ List.filter (isCloneStep1 cfg target id) [record; step] = [step]).
  { cbn [List.filter app]. unfold isWorkflowRecord, isCloneStep1.
    rewrite Hr1, Hr2, Hs1, Hs2.
    change (Spec_TaskType (Task_Spec record)) with (PgtaskWorkflow cfg).
    change (Spec_TaskType (Task_Spec step)) with (PgtaskCloneStep1 cfg).
    rewrite !String.eqb_refl.
    assert (H1 : String.eqb (PgtaskCloneStep1 cfg) (PgtaskWorkflow cfg) = false)
      by (apply String.eqb_neq; congruence).
    assert (H2 : String.eqb (PgtaskWorkflow cfg) (PgtaskCloneStep1 cfg) = false)
      by (apply String.eqb_neq; congruence).
    rewrite H1, H2. simpl. split; reflexivity. }
  destruct Hadded as [Hadded1 Hadded2].
  eexists. split.
  - run_clone. rewrite Hsource. cbv beta iota. rewrite Hvalid, Hup.
    settle. rewrite Htarget. cbv beta iota. settle. rewrite Hlist.
    cbv beta iota. rewrite Hfind. settle. rewrite Huuid. cbv beta iota.
    rewrite Hslice. cbv beta iota. settle. fold target. fold id.
    fold record. rewrite Hrecord. cbv beta iota zeta. settle. fold step.
    rewrite Hstep. reflexivity.
  - split; [exact Hid|]. split; [reflexivity|].
    split; [simpl; rewrite <- app_assoc; reflexivity|].
    split; [reflexivity|]. split; [reflexivity|].
    split; [exact Hadded1|]. split; [exact Hadded2|].
    intros Hfresh.
    assert (Htasks :
      map snd (pgtasks
        (stored namespace step
           (logged (PgtasksCreate namespace step)
              (stored namespace record
                 (logged (PgtasksCreate namespace record)
                    (logged (ReadFile "/proc/sys/kernel/random/uuid")
                       (logged (PgtasksList namespace (cloneSelector cfg request))
                          (logged (PgclustersGet namespace target)
                             (logged
                                (PgclustersGet namespace
                                   (SourceClusterName request)) w)))))))))
      = map snd (pgtasks w) ++ [record; step]).
    { simpl. rewrite <- app_assoc, map_app. reflexivity. }
    rewrite Htasks, !List.filter_app.
    rewrite !(filter_unlabelled cfg _ id (pgtasks w)); try exact Hfresh.
    + rewrite Hadded1, Hadded2. split; reflexivity.
    + intros task Ht. unfold isCloneStep1. rewrite Ht.
      apply andb_false_r.
    + intros task Ht. unfold isWorkflowRecord. rewrite Ht.
      apply andb_false_r.
Qed.

(** The end-to-end scenario: [a] exists and is upgraded, [b] does not exist,
    the store holds no task. *)
Lemma clone_enqueues_workflow_and_first_step_witness :
  exists w',
    Clone Samples.config Samples.anyQuantity Samples.anyStorage
      (Samples.cloneOf "a" "b") "pgo" "alice" Samples.freshWorld
    = (Returns {| Status_Code := Ok; Status_Msg := EmptyString;
                  Response_TargetClusterName := "b";
                  Response_WorkflowID :=
                    "1b4e28ba-2fa1-11d2-883f-0016d3cca427" |}, w')
    /\ length (pgtasks w') = 2%nat.
Proof.
  destruct (clone_enqueues_workflow_and_first_step Samples.config
              Samples.anyQuantity Samples.anyStorage (Samples.cloneOf "a" "b")
              "pgo" "alice" Samples.freshWorld Samples.sourceCluster
              "pgclusters.crunchydata.com b not found" []
              ("1b4e28ba-2fa1-11d2-883f-0016d3cca427" +:+ Samples.newline)
              ltac:(discriminate) ltac:(discriminate)
              ltac:(vm_compute; reflexivity) ltac:(reflexivity)
              ltac:(vm_compute; discriminate)
              ltac:(vm_compute; reflexivity) ltac:(vm_compute; reflexivity)
              ltac:(reflexivity) ltac:(reflexivity)
              ltac:(vm_compute; lia)
              ltac:(reflexivity) ltac:(reflexivity))
    as (w' & Hrun & _ & _ & Htasks & _).
  exists w'. split; [exact Hrun|]. rewrite Htasks. reflexivity.
Defined.

(** * Further properties of the promotion handlers *)

Section ReadyFacts.

Variable cfg : Config.
Variable parseJSON : string -> option Json.any.

Lemma eqString_true (v : Json.any) (s : string) :
  Json.eqString v s = true <-> v = Json.Str s.
Proof.
  destruct v; simpl; try (split; [discriminate|intros [=]]).
  rewrite String.eqb_eq. split; [intros ->; reflexivity|intros [= ->]; reflexivity].
Qed.

(** The tick that ends the wait with nil. *)
Lemma pollOnce_ready (newPod : Pod) (exec : Exec) (rd : bool) (c : Container)
    (cs : list Container) :
  Pod_Containers newPod = c :: cs ->
  rd = true \/ GoStrings.Contains (recoveryStdout newPod exec) "f" = true ->
  leaderReady (fst (Json.UnmarshalMap parseJSON (leaderStdout cfg newPod exec)))
  = Returns true ->
  pollOnce cfg parseJSON newPod exec rd
  = (Finished (Returns None),
     (if rd then []
      else [ExecToPodThroughAPI isInRecoveryCMD (Container_Name c)
              (Pod_Name newPod) (Pod_Namespace newPod)])
     ++ [ExecToPodThroughAPI (leaderStatusCMD cfg) (Container_Name c)
           (Pod_Name newPod) (Pod_Namespace newPod)]).
Proof.
  intros Hc Hflag.
  unfold pollOnce, probeRecovery, probeLeader, leaderStdout, recoveryStdout
    in *.
  rewrite Hc in *. intros ->.
  destruct rd; [reflexivity|].
  destruct Hflag as [[=]| ->]. reflexivity.
Qed.

Lemma pollOnce_nil_inv (newPod : Pod) (exec : Exec) (rd : bool) :
  fst (pollOnce cfg parseJSON newPod exec rd) = Finished (Returns None) ->
  Pod_Containers newPod <> []
  /\ (rd = true
      \/ GoStrings.Contains (recoveryStdout newPod exec) "f" = true)
  /\ leaderReady
       (fst (Json.UnmarshalMap parseJSON (leaderStdout cfg newPod exec)))
     = Returns true.
Proof.
  unfold pollOnce, probeRecovery, probeLeader, leaderStdout, recoveryStdout.
  destruct (Pod_Containers newPod) as [|c cs].
  - destruct rd; simpl; discriminate.
  - destruct rd; simpl.
    + destruct (leaderReady _) as [[|]| |]; simpl; try discriminate.
      intros _. repeat split; auto; discriminate.
    + destruct (GoStrings.Contains _ "f"); simpl; [|discriminate].
      destruct (leaderReady _) as [[|]| |]; simpl; try discriminate.
      intros _. repeat split; auto; discriminate.
Qed.

Lemma waitLoop_nil_inv (newPod : Pod) (cluster : Pgcluster)
    (deliveries : list fired) :
  forall rd,
    result (waitLoop cfg parseJSON newPod cluster rd deliveries)
    = Returns None ->
    exists first t exec later rd',
      deliveries = first ++ {| at_ms := t; what := Tick exec |} :: later
      /\ recoveryDisabledAfter cfg parseJSON newPod rd first = Some rd'
      /\ fst (pollOnce cfg parseJSON newPod exec rd') = Finished (Returns None)
      /\ finishedAt (waitLoop cfg parseJSON newPod cluster rd deliveries)
         = Some t.
Proof.
  induction deliveries as [|[t [exec|]] rest IH]; intros rd; simpl;
    try discriminate.
  destruct (pollOnce cfg parseJSON newPod exec rd) as [[rd1|o] asked] eqn:Hp;
    simpl.
  - intros H. destruct (IH rd1 H) as (first & t' & exec' & later & rd' & -> &
                                      Hafter & Hpoll & Hfin).
    exists ({| at_ms := t; what := Tick exec |} :: first), t', exec', later, rd'.
    simpl. rewrite Hp. simpl. auto.
  - intros ->. exists [], t, exec, rest, rd. simpl. rewrite Hp. auto.
Qed.

(** Whatever ends the wait, nothing delivered after it is looked at. *)
Lemma waitLoop_final (newPod : Pod) (cluster : Pgcluster)
    (first later : list fired) :
  forall rd,
    result (waitLoop cfg parseJSON newPod cluster rd first) <> Blocks ->
    waitLoop cfg parseJSON newPod cluster rd (first ++ later)
    = waitLoop cfg parseJSON newPod cluster rd first.
Proof.
  induction first as [|[t [exec|]] rest IH]; intros rd; simpl.
  - intros H. contradiction.
  - destruct (pollOnce cfg parseJSON newPod exec rd) as [[rd1|o] asked];
      simpl; [|reflexivity].
    intros H. rewrite (IH rd1 H). reflexivity.
  - reflexivity.
Qed.

(** What a tick asks: at most signal A and then signal B, both in the pod's
    first container. *)
Lemma pollOnce_calls (newPod : Pod) (exec : Exec) (rd : bool) :
  exists asked, snd (pollOnce cfg parseJSON newPod exec rd) = asked
    /\ (length asked <= 2)%nat
    /\ Forall
         (fun call =>
            exists c cs, Pod_Containers newPod = c :: cs
              /\ (call = ExecToPodThroughAPI isInRecoveryCMD (Container_Name c)
                           (Pod_Name newPod) (Pod_Namespace newPod)
                  \/ call = ExecToPodThroughAPI (leaderStatusCMD cfg)
                              (Container_Name c) (Pod_Name newPod)
                              (Pod_Namespace newPod)))
         asked.
Proof.
  eexists. split; [reflexivity|].
  unfold pollOnce, probeRecovery, probeLeader.
  destruct (Pod_Containers newPod) as [|c cs] eqn:Hc.
  - destruct rd; simpl; split; auto.
  - assert (HA : exists c0 cs0, c :: cs = c0 :: cs0
              /\ (ExecToPodThroughAPI isInRecoveryCMD (Container_Name c)
                    (Pod_Name newPod) (Pod_Namespace newPod)
                  = ExecToPodThroughAPI isInRecoveryCMD (Container_Name c0)
                      (Pod_Name newPod) (Pod_Namespace newPod)
                  \/ ExecToPodThroughAPI isInRecoveryCMD (Container_Name c)
                       (Pod_Name newPod) (Pod_Namespace newPod)
                     = ExecToPodThroughAPI (leaderStatusCMD cfg)
                         (Container_Name c0) (Pod_Name newPod)
                         (Pod_Namespace newPod)))
      by (exists c, cs; auto).
    assert (HB : exists c0 cs0, c :: cs = c0 :: cs0
              /\ (ExecToPodThroughAPI (leaderStatusCMD cfg) (Container_Name c)
                    (Pod_Name newPod) (Pod_Namespace newPod)
                  = ExecToPodThroughAPI isInRecoveryCMD (Container_Name c0)
                      (Pod_Name newPod) (Pod_Namespace newPod)
                  \/ ExecToPodThroughAPI (leaderStatusCMD cfg)
                       (Container_Name c) (Pod_Name newPod)
                       (Pod_Namespace newPod)
                     = ExecToPodThroughAPI (leaderStatusCMD cfg)
                         (Container_Name c0) (Pod_Name newPod)
                         (Pod_Namespace newPod)))
      by (exists c, cs; auto).
    destruct rd; simpl.
    + destruct (leaderReady _) as [[|]| |]; simpl; split; auto.
    + destruct (GoStrings.Contains _ "f"); simpl; [|split; auto].
      destruct (leaderReady _) as [[|]| |]; simpl; split; auto.
Qed.

End ReadyFacts.

(** X1. The wait returns nil at the first tick at which recovery is known
    to be over (the flag is already set, or this tick's is-in-recovery
    output has an [f]) and the leader status shows a running leader without
    pending restart: both signals may turn in the same tick. The last
    request of the wait is that tick's leader status probe. *)
Theorem wait_returns_nil_when_ready
    (cfg : Config) (parseJSON : string -> option Json.any)
    (newPod : Pod) (cluster : Pgcluster) (c : Container) (cs : list Container)
    (first later : list fired) (t : Z) (exec : Exec) (rd : bool) :
  Pod_Containers newPod = c :: cs ->
  recoveryDisabledAfter cfg parseJSON newPod false first = Some rd ->
  rd = true \/ GoStrings.Contains (recoveryStdout newPod exec) "f" = true ->
  leaderReady (fst (Json.UnmarshalMap parseJSON (leaderStdout cfg newPod exec)))
  = Returns true ->
  let r :=
    waitForStandbyPromotion cfg parseJSON newPod cluster
      (first ++ {| at_ms := t; what := Tick exec |} :: later) in
  result r = Returns None
  /\ finishedAt r = Some t
  /\ exists before,
       calls r
       = before ++ [(t, ExecToPodThroughAPI (leaderStatusCMD cfg)
                          (Container_Name c) (Pod_Name newPod)
                          (Pod_Namespace newPod))].
Proof.
  intros Hc Hafter Hflag Hready r.
  destruct (waitLoop_app cfg parseJSON newPod cluster first
              ({| at_ms := t; what := Tick exec |} :: later) false rd Hafter)
    as (before & Hcalls & Hres & Hfin & _).
  unfold r, waitForStandbyPromotion. rewrite Hcalls, Hres, Hfin.
  simpl. rewrite (pollOnce_ready cfg parseJSON newPod exec rd c cs Hc Hflag
                    Hready).
  simpl. split; [reflexivity|]. split; [reflexivity|].
  destruct rd; simpl.
  - exists before. reflexivity.
  - eexists (before ++ [_]). rewrite <- app_assoc. reflexivity.
Qed.

(** Recovery ends and the leader is running at the very first tick. *)
Lemma wait_returns_nil_when_ready_witness :
  result
    (waitForStandbyPromotion Samples.config Samples.parse Samples.pod
       Samples.cluster
       ([] ++ {| at_ms := 500; what := Tick Samples.writable |} :: []))
  = Returns None.
Proof.
  apply (wait_returns_nil_when_ready Samples.config Samples.parse Samples.pod
           Samples.cluster {| Container_Name := "database" |} [] [] [] 500
           Samples.writable false).
  - reflexivity.
  - reflexivity.
  - right. reflexivity.
  - vm_compute. reflexivity.
Defined.

(** X2. The wait returns nil only at a tick at which the flag was set or
    is set by that tick's is-in-recovery output, and at which the leader
    status, as decoded, shows state running and no pending restart; the pod
    then has a container, and the wait ends at that tick's time. *)
Theorem wait_nil_only_when_ready
    (cfg : Config) (parseJSON : string -> option Json.any)
    (newPod : Pod) (cluster : Pgcluster) (deliveries : list fired) :
  result (waitForStandbyPromotion cfg parseJSON newPod cluster deliveries)
  = Returns None ->
  exists first t exec later rd,
    deliveries = first ++ {| at_ms := t; what := Tick exec |} :: later
    /\ recoveryDisabledAfter cfg parseJSON newPod false first = Some rd
    /\ Pod_Containers newPod <> []
    /\ (rd = true
        \/ GoStrings.Contains (recoveryStdout newPod exec) "f" = true)
    /\ leaderReady
         (fst (Json.UnmarshalMap parseJSON (leaderStdout cfg newPod exec)))
       = Returns true
    /\ finishedAt
         (waitForStandbyPromotion cfg parseJSON newPod cluster deliveries)
       = Some t.
Proof.
  intros H.
  destruct (waitLoop_nil_inv cfg parseJSON newPod cluster deliveries false H)
    as (first & t & exec & later & rd & Hd & Hafter & Hpoll & Hfin).
  destruct (pollOnce_nil_inv cfg parseJSON newPod exec rd Hpoll)
    as (Hpod & Hflag & Hready).
  exists first, t, exec, later, rd. repeat split; assumption.
Qed.

Lemma wait_nil_only_when_ready_witness :
  exists first t exec later rd,
    [{| at_ms := 500; what := Tick Samples.promoted |};
     {| at_ms := 1000; what := Tick Samples.writable |}]
    = first ++ {| at_ms := t; what := Tick exec |} :: later
    /\ recoveryDisabledAfter Samples.config Samples.parse Samples.pod false
         first = Some rd
    /\ Pod_Containers Samples.pod <> []
    /\ (rd = true
        \/ GoStrings.Contains (recoveryStdout Samples.pod exec) "f" = true)
    /\ leaderReady
         (fst (Json.UnmarshalMap Samples.parse
                 (leaderStdout Samples.config Samples.pod exec)))
       = Returns true
    /\ finishedAt
         (waitForStandbyPromotion Samples.config Samples.parse Samples.pod
            Samples.cluster
            [{| at_ms := 500; what := Tick Samples.promoted |};
             {| at_ms := 1000; what := Tick Samples.writable |}])
       = Some t.
Proof.
  apply (wait_nil_only_when_ready Samples.config Samples.parse Samples.pod
           Samples.cluster
           [{| at_ms := 500; what := Tick Samples.promoted |};
            {| at_ms := 1000; what := Tick Samples.writable |}]).
  vm_compute. reflexivity.
Defined.

(** X3. A pod without containers makes the first tick panic on
    [Containers[0]], before any command is sent to the pod; only a deadline
    received before any tick is answered in the normal way. *)
Theorem wait_panics_on_pod_without_containers
    (cfg : Config) (parseJSON : string -> option Json.any)
    (newPod : Pod) (cluster : Pgcluster) (deliveries : list fired) :
  Pod_Containers newPod = [] ->
  let r := waitForStandbyPromotion cfg parseJSON newPod cluster deliveries in
  calls r = []
  /\ (forall t exec later,
        deliveries = {| at_ms := t; what := Tick exec |} :: later ->
        result r = Panics "index out of range [0] with length 0"
        /\ finishedAt r = Some t)
  /\ result r <> Returns None.
Proof.
  intros Hc r. unfold r, waitForStandbyPromotion.
  destruct deliveries as [|[t [exec|]] rest]; simpl;
    unfold pollOnce, probeRecovery; rewrite ?Hc; simpl.
  - split; [reflexivity|]. split; [|discriminate].
    intros t0 e0 l0 H. discriminate H.
  - split; [reflexivity|]. split; [|discriminate].
    intros t0 e0 l0 H. injection H as <- _ _. split; reflexivity.
  - split; [reflexivity|]. split; [|discriminate].
    intros t0 e0 l0 H. discriminate H.
Qed.

Lemma wait_panics_on_pod_without_containers_witness :
  calls
    (waitForStandbyPromotion Samples.config Samples.parse Samples.bare
       Samples.cluster [{| at_ms := 500; what := Tick Samples.writable |}])
  = [].
Proof.
  apply (wait_panics_on_pod_without_containers Samples.config Samples.parse
           Samples.bare Samples.cluster
           [{| at_ms := 500; what := Tick Samples.writable |}]).
  reflexivity.
Defined.

(** X4. Whatever ends the wait (nil, the timeout, a panic), it ends it for
    good: ticks and timers delivered after that are neither looked at nor
    answered with a probe. *)
Theorem wait_result_is_final
    (cfg : Config) (parseJSON : string -> option Json.any)
    (newPod : Pod) (cluster : Pgcluster) (first later : list fired) :
  result (waitForStandbyPromotion cfg parseJSON newPod cluster first)
  <> Blocks ->
  waitForStandbyPromotion cfg parseJSON newPod cluster (first ++ later)
  = waitForStandbyPromotion cfg parseJSON newPod cluster first.
Proof. apply waitLoop_final. Qed.

(** After the deadline a tick with a writable leader changes nothing. *)
Lemma wait_result_is_final_witness :
  waitForStandbyPromotion Samples.config Samples.parse Samples.pod
    Samples.cluster
    ([{| at_ms := 300000; what := Deadline |}]
     ++ [{| at_ms := 300000; what := Tick Samples.writable |}])
  = waitForStandbyPromotion Samples.config Samples.parse Samples.pod
      Samples.cluster [{| at_ms := 300000; what := Deadline |}].
Proof.
  apply (wait_result_is_final Samples.config Samples.parse Samples.pod
           Samples.cluster [{| at_ms := 300000; what := Deadline |}]
           [{| at_ms := 300000; what := Tick Samples.writable |}]).
  discriminate.
Defined.

(** X5. The wait sends the pod nothing but its two commands, the
    is-in-recovery query and the leader status probe, each in the pod's first
    container, and at most two commands per delivery received. *)
Theorem wait_runs_only_its_two_probes
    (cfg : Config) (parseJSON : string -> option Json.any)
    (newPod : Pod) (cluster : Pgcluster) (deliveries : list fired) :
  let r := waitForStandbyPromotion cfg parseJSON newPod cluster deliveries in
  (length (calls r) <= 2 * length deliveries)%nat
  /\ Forall
       (fun tc =>
          exists c cs, Pod_Containers newPod = c :: cs
            /\ (snd tc = ExecToPodThroughAPI isInRecoveryCMD (Container_Name c)
                           (Pod_Name newPod) (Pod_Namespace newPod)
                \/ snd tc = ExecToPodThroughAPI (leaderStatusCMD cfg)
                              (Container_Name c) (Pod_Name newPod)
                              (Pod_Namespace newPod)))
       (calls r).
Proof.
  unfold waitForStandbyPromotion. generalize false as rd.
  induction deliveries as [|[t [exec|]] rest IH]; intros rd; simpl;
    try (split; [lia|constructor]).
  destruct (pollOnce_calls cfg parseJSON newPod exec rd)
    as (asked & Hasked & Hlen & Hall).
  destruct (pollOnce cfg parseJSON newPod exec rd) as [[rd1|o] asked'];
    simpl in *; subst asked'.
  - destruct (IH rd1) as [IHlen IHall]. split.
    + rewrite length_app, length_map. lia.
    + apply Forall_app. split; [|exact IHall].
      apply Forall_map. exact Hall.
  - split; [rewrite length_map; lia|]. apply Forall_map. exact Hall.
Qed.

(** X6. When a leader status counts as ready: the text decodes to a JSON
    object whose [state] is the string [running] and whose
    [pending_restart] is absent, [null] or the boolean false. *)
Theorem leader_ready_iff
    (parseJSON : string -> option Json.any) (data : string) :
  leaderReady (fst (Json.UnmarshalMap parseJSON data)) = Returns true
  <-> exists fields,
        parseJSON data = Some (Json.Map fields)
        /\ Json.index (Json.ofFields fields) "state" = Json.Str "running"
        /\ (Json.index (Json.ofFields fields) "pending_restart" = Json.Nil
            \/ Json.index (Json.ofFields fields) "pending_restart"
               = Json.Bool false).
Proof.
  unfold Json.UnmarshalMap. split.
  - destruct (parseJSON data) as [[| | | | |fields]|]; simpl;
      try (unfold leaderReady, Json.index; rewrite lookup_empty; simpl;
           discriminate).
    intros H. exists fields. split; [reflexivity|].
    unfold leaderReady in H.
    destruct (Json.eqString _ "running") eqn:Hs; [|discriminate].
    apply eqString_true in Hs. split; [exact Hs|].
    destruct (Json.index (Json.ofFields fields) "pending_restart")
      as [|[|]| | | |]; simpl in H; try discriminate; auto.
  - intros (fields & -> & Hs & Hp). simpl. unfold leaderReady.
    rewrite Hs. simpl. destruct Hp as [-> | ->]; reflexivity.
Qed.

(** ** Success of the orchestrator and of the handlers *)

Section SuccessFacts.

Variable cfg : Config.

Lemma orchestrator_nil_iff (env : Env) (clusterName namespace : string) :
  fst (cleanAndCreatePostFailoverBackup cfg env clusterName namespace)
  = Returns None
  <-> exists repo,
        answerGetPods env (repoSelector cfg clusterName) namespace
        = ([repo], None)
        /\ answerCleanBackupResources env namespace clusterName = None
        /\ answerCreatePostFailoverBackup env namespace clusterName
             (Pod_Name repo) = None.
Proof.
  unfold cleanAndCreatePostFailoverBackup.
  destruct (answerGetPods env _ namespace) as [[|p [|q pods]] [e|]];
    simpl; try (split; [discriminate|intros (repo & [=] & _)]).
  destruct (answerCleanBackupResources env namespace clusterName) as [e|];
    simpl.
  - split; [discriminate|intros (repo & _ & [=] & _)].
  - split.
    + intros [= H]. exists p. auto.
    + intros (repo & [= <-] & _ & ->). reflexivity.
Qed.

Lemma orchestrator_nil_calls (env : Env) (clusterName namespace : string)
    (repo : Pod) :
  answerGetPods env (repoSelector cfg clusterName) namespace = ([repo], None) ->
  answerCleanBackupResources env namespace clusterName = None ->
  snd (cleanAndCreatePostFailoverBackup cfg env clusterName namespace)
  = [GetPods (repoSelector cfg clusterName) namespace;
     CleanBackupResources namespace clusterName;
     CreatePostFailoverBackup namespace clusterName (Pod_Name repo)].
Proof.
  unfold cleanAndCreatePostFailoverBackup. intros -> ->. reflexivity.
Qed.

Lemma orchestrator_returns (env : Env) (clusterName namespace : string) :
  exists err,
    fst (cleanAndCreatePostFailoverBackup cfg env clusterName namespace)
    = Returns err.
Proof.
  unfold cleanAndCreatePostFailoverBackup.
  destruct (answerGetPods env _ namespace) as [[|p [|q pods]] [e|]];
    simpl; try (eexists; reflexivity).
  destruct (answerCleanBackupResources env namespace clusterName);
    eexists; reflexivity.
Qed.

End SuccessFacts.

(** X7. The orchestrator always returns (it never panics or blocks), and
    it returns nil exactly when the lookup yields one pod and no error, the
    cleanup succeeds and the creation succeeds; its requests are then the
    lookup, the cleanup and the creation for that pod, in that order. *)
Theorem orchestrator_nil_iff_all_steps_succeed
    (cfg : Config) (env : Env) (clusterName namespace : string) :
  let r := cleanAndCreatePostFailoverBackup cfg env clusterName namespace in
  (exists err, fst r = Returns err)
  /\ (fst r = Returns None
      <-> exists repo,
            answerGetPods env (repoSelector cfg clusterName) namespace
            = ([repo], None)
            /\ answerCleanBackupResources env namespace clusterName = None
            /\ answerCreatePostFailoverBackup env namespace clusterName
                 (Pod_Name repo) = None
            /\ snd r
               = [GetPods (repoSelector cfg clusterName) namespace;
                  CleanBackupResources namespace clusterName;
                  CreatePostFailoverBackup namespace clusterName
                    (Pod_Name repo)]).
Proof.
  intros r. split; [apply orchestrator_returns|].
  unfold r. rewrite orchestrator_nil_iff. split.
  - intros (repo & Hp & Hc & Hb). exists repo. repeat split; auto.
    apply orchestrator_nil_calls; assumption.
  - intros (repo & Hp & Hc & Hb & _). exists repo. auto.
Qed.

(** X8. The standby handler returns nil only when every step it took
    succeeded: the wait returned nil, the rotation task (asked for exactly
    when the pgBouncer label reads [true]) was created, one repository pod
    was found, and cleanup and creation succeeded. Its requests are then the
    probes of the wait, the rotation when enabled, and the three requests of
    the orchestrator. *)
Theorem standby_nil_only_after_all_steps
    (cfg : Config) (parseJSON : string -> option Json.any) (env : Env)
    (deliveries : list fired) (newPod : Pod) (cluster : Pgcluster) :
  let waited :=
    waitForStandbyPromotion cfg parseJSON newPod cluster deliveries in
  let parameters := rotationParameters cfg cluster in
  let enabled :=
    String.eqb (GoStrings.index (Cluster_Labels cluster) (LABEL_PGBOUNCER cfg))
      "true" in
  let r := handleStandbyPromotion cfg parseJSON env deliveries newPod cluster in
  fst r = Returns None ->
  result waited = Returns None
  /\ (enabled = true ->
      answerCreatePgTaskforUpdatepgBouncer env cluster EmptyString parameters
      = None)
  /\ exists repo,
       answerGetPods env (repoSelector cfg (Cluster_Name cluster))
         (Cluster_Namespace cluster) = ([repo], None)
       /\ answerCleanBackupResources env (Cluster_Namespace cluster)
            (Cluster_Name cluster) = None
       /\ answerCreatePostFailoverBackup env (Cluster_Namespace cluster)
            (Cluster_Name cluster) (Pod_Name repo) = None
       /\ snd r
          = map snd (calls waited)
            ++ (if enabled
                then [CreatePgTaskforUpdatepgBouncer cluster EmptyString
                        parameters]
                else [])
            ++ [GetPods (repoSelector cfg (Cluster_Name cluster))
                  (Cluster_Namespace cluster);
                CleanBackupResources (Cluster_Namespace cluster)
                  (Cluster_Name cluster);
                CreatePostFailoverBackup (Cluster_Namespace cluster)
                  (Cluster_Name cluster) (Pod_Name repo)].
Proof.
  intros waited parameters enabled r. unfold r, handleStandbyPromotion.
  fold waited. fold parameters. fold enabled.
  destruct (result waited) as [[e|]| |]; simpl; try discriminate.
  pose proof (orchestrator_nil_iff cfg env (Cluster_Name cluster)
                (Cluster_Namespace cluster)) as Hiff.
  pose proof (orchestrator_nil_calls cfg env (Cluster_Name cluster)
                (Cluster_Namespace cluster)) as Hcalls.
  destruct enabled.
  - destruct (answerCreatePgTaskforUpdatepgBouncer env cluster EmptyString
                parameters) as [e|]; simpl; [discriminate|].
    destruct (cleanAndCreatePostFailoverBackup cfg env (Cluster_Name cluster)
                (Cluster_Namespace cluster)) as [o asked]; simpl in *.
    intros Ho. apply Hiff in Ho. destruct Ho as (repo & Hp & Hc & Hb).
    split; [reflexivity|]. split; [reflexivity|].
    exists repo. rewrite (Hcalls repo Hp Hc). auto.
  - destruct (cleanAndCreatePostFailoverBackup cfg env (Cluster_Name cluster)
                (Cluster_Namespace cluster)) as [o asked]; simpl in *.
    intros Ho. apply Hiff in Ho. destruct Ho as (repo & Hp & Hc & Hb).
    split; [reflexivity|]. split; [discriminate|].
    exists repo. rewrite (Hcalls repo Hp Hc). auto.
Qed.

Lemma standby_nil_only_after_all_steps_witness :
  result
    (waitForStandbyPromotion Samples.config Samples.parse Samples.pod
       Samples.cluster [{| at_ms := 500; what := Tick Samples.writable |}])
  = Returns None.
Proof.
  apply (standby_nil_only_after_all_steps Samples.config Samples.parse
           (Samples.envWith ([Samples.repoPod], None) None None None)
           [{| at_ms := 500; what := Tick Samples.writable |}]
           Samples.pod Samples.cluster).
  vm_compute. reflexivity.
Defined.

(** X9. The plain promotion handler does not wait and does not rotate
    passwords: it sends the pod no command and asks for no rotation task,
    whatever labels the cluster has. It asks first for the repository pods
    of the cluster in the promoted pod's namespace, makes at most three
    requests, all of the backup orchestration, and always returns. *)
Theorem plain_promotion_only_orchestrates
    (cfg : Config) (env : Env) (newPod : Pod) (clusterName : string) :
  let r := handlePostgresPodPromotion cfg env newPod clusterName in
  (exists err, fst r = Returns err)
  /\ (exists rest,
        snd r
        = GetPods (repoSelector cfg clusterName) (Pod_Namespace newPod) :: rest
        /\ (length rest <= 2)%nat
        /\ Forall (fun c => isBackupCall c = true) rest)
  /\ Forall (fun c => stepOf c = 3%nat) (snd r).
Proof.
  intros r. unfold r, handlePostgresPodPromotion.
  split; [apply orchestrator_returns|]. split; [|apply backup_calls_are_backup].
  unfold cleanAndCreatePostFailoverBackup.
  destruct (answerGetPods env _ (Pod_Namespace newPod))
    as [[|p [|q pods]] [e|]]; simpl;
    try (eexists; split; [reflexivity|]; split; [simpl; lia|constructor]).
  destruct (answerCleanBackupResources env (Pod_Namespace newPod) clusterName);
    simpl; eexists; (split; [reflexivity|]); (split; [simpl; lia|]);
    repeat constructor.
Qed.

(** * Further properties of the clone service *)

Import CloneObserve.

(** X10. The validation passes exactly when both names are set, both sizes
    are accepted and the storage source fits the cluster's storage type
    (read from the user labels, empty when the label is missing). When it
    fails, the error is that of the first failing check, in the order
    source name, target name, PVC size, pgBackRest PVC size, storage
    type. *)
Theorem validateCloneRequest_first_failure
    (cfg : Config) (ValidateQuantity : string -> error)
    (ValidateStorage : string -> string -> bool -> error)
    (request : CloneRequest) (cluster : Pgcluster) :
  let verdict :=
    validateCloneRequest cfg ValidateQuantity ValidateStorage request cluster in
  let storage :=
    ValidateStorage (BackrestStorageSource request)
      (GoStrings.index (Cluster_UserLabels cluster)
         (LABEL_BACKREST_STORAGE_TYPE cfg)) true in
  (verdict = None
   <-> SourceClusterName request <> EmptyString
       /\ TargetClusterName request <> EmptyString
       /\ ValidateQuantity (PVCSize request) = None
       /\ ValidateQuantity (BackrestPVCSize request) = None
       /\ storage = None)
  /\ (SourceClusterName request = EmptyString ->
      verdict = Some "the source cluster name must be set")
  /\ (SourceClusterName request <> EmptyString ->
      TargetClusterName request = EmptyString ->
      verdict = Some "the target cluster name must be set")
  /\ (SourceClusterName request <> EmptyString ->
      TargetClusterName request <> EmptyString ->
      (forall e, ValidateQuantity (PVCSize request) = Some e ->
                 verdict = Some (ErrMessagePVCSize cfg (PVCSize request) e))
      /\ (ValidateQuantity (PVCSize request) = None ->
          (forall e, ValidateQuantity (BackrestPVCSize request) = Some e ->
                     verdict
                     = Some (ErrMessagePVCSize cfg (BackrestPVCSize request) e))
          /\ (ValidateQuantity (BackrestPVCSize request) = None ->
              verdict = storage))).
Proof.
  intros verdict storage. unfold verdict, validateCloneRequest. fold storage.
  destruct (String.eqb_spec (SourceClusterName request) EmptyString)
    as [Hs|Hs];
    [|destruct (String.eqb_spec (TargetClusterName request) EmptyString)
        as [Ht|Ht]];
    [| |destruct (ValidateQuantity (PVCSize request)) as [e1|];
        [|destruct (ValidateQuantity (BackrestPVCSize request)) as [e2|]]].
  all: repeat split; intros; subst;
    repeat match goal with
           | H : _ /\ _ |- _ => destruct H
           end;
    try congruence; try discriminate; auto.
Qed.

(** Names set, the PVC size not a quantity. *)
Lemma validateCloneRequest_first_failure_witness :
  validateCloneRequest Samples.config Samples.gibibytes Samples.anyStorage
    {| SourceClusterName := "a"; TargetClusterName := "b";
       PVCSize := "lots"; BackrestPVCSize := "alot";
       BackrestStorageSource := EmptyString; EnableMetrics := false |}
    Samples.sourceCluster
  = Some
      "could not understand the PVC size lots: quantities must match the regular expression".
Proof.
  refine (proj1 (proj2 (proj2 (proj2
    (validateCloneRequest_first_failure Samples.config Samples.gibibytes
       Samples.anyStorage
       {| SourceClusterName := "a"; TargetClusterName := "b";
          PVCSize := "lots"; BackrestPVCSize := "alot";
          BackrestStorageSource := EmptyString; EnableMetrics := false |}
       Samples.sourceCluster))) _ _)
    "quantities must match the regular expression" _);
    [discriminate|discriminate|reflexivity].
Defined.

(** ** Every outcome of [Clone] *)

(** Closes a leaf of the case analysis below: [Clone] has answered, having
    made the requests [made] and stored the tasks [added]. *)
Ltac answered :=
  split; [reflexivity|];
  split; [cbn [asked logged stored]; rewrite <- ?app_assoc; reflexivity|];
  split; [cbn [pgtasks logged stored map]; rewrite ?app_nil_r, <- ?app_assoc;
          reflexivity|];
  split; [reflexivity|];
  split; [eexists; reflexivity|];
  cbn [Status_Code Status_Msg Response_TargetClusterName Response_WorkflowID
       failed length fst];
  repeat split; auto; intros; try discriminate; try lia.

Lemma Clone_outcomes
    (cfg : Config) (ValidateQuantity : string -> error)
    (ValidateStorage : string -> string -> bool -> error)
    (request : CloneRequest) (namespace pgouser : string) (w : World) :
  exists o w' made added,
    Clone cfg ValidateQuantity ValidateStorage request namespace pgouser w
    = (o, w')
    /\ asked w' = asked w ++ made
    /\ pgtasks w' = pgtasks w ++ map (pair namespace) added
    /\ pgclusters w' = pgclusters w
    /\ (exists rest, fullRun = map kindOf made ++ rest)
    /\ match o with
       | Returns response =>
           match Status_Code response with
           | Ok =>
               length added = 2%nat
               /\ map kindOf made = fullRun
               /\ Response_TargetClusterName response
                  = TargetClusterName request
               /\ Status_Msg response = EmptyString
           | Error =>
               (length added <= 1)%nat
               /\ Response_TargetClusterName response = EmptyString
               /\ Response_WorkflowID response = EmptyString
               /\ (length added = 1%nat -> map kindOf made = fullRun)
           end
       | Panics _ => added = [] /\ fst (uuidFile w) = EmptyString
       | Blocks => False
       end.
Proof.
  run_clone.
  destruct (lookupCluster w namespace (SourceClusterName request))
    as [source|e1].
  2: { eexists _, _, [_], []. answered. }
  destruct (validateCloneRequest cfg ValidateQuantity ValidateStorage request
              source) as [e2|].
  { eexists _, _, [_], []. answered. }
  destruct (String.eqb _ (ANNOTATIONS_FALSE cfg)).
  { eexists _, _, [_], []. answered. }
  settle.
  destruct (lookupCluster w namespace (TargetClusterName request))
    as [target|e3].
  { eexists _, _, [_; _], []. answered. }
  settle.
  destruct (selectTasks w namespace (cloneSelector cfg request))
    as [items|e4].
  2: { eexists _, _, [_; _; _], []. answered. }
  destruct (find (isPending cfg) items) as [task|].
  { eexists _, _, [_; _; _], []. answered. }
  settle.
  destruct (uuidFile w) as [u [e5|]].
  { eexists _, _, [_; _; _; _], []. answered. }
  destruct u as [|a u].
  { eexists _, _, [_; _; _; _], []. answered. }
  unfold sliceToLast, ret. cbv beta iota. settle.
  destruct (apiFault w (PgtasksCreate namespace _)) as [e6|].
  { eexists _, _, [_; _; _; _; _], []. answered. }
  cbv beta iota zeta. settle.
  destruct (apiFault w (PgtasksCreate namespace _)) as [e7|].
  { eexists _, _, [_; _; _; _; _; _], [_]. answered. }
  eexists _, _, [_; _; _; _; _; _], [_; _]. answered.
Qed.

(** X11. For every request and every world, [Clone] returns or panics (it
    does not block), leaves the clusters alone, and only ever appends tasks
    to the store, in the request's namespace and at most two. The response
    is Ok exactly when two tasks were added, and it then carries the
    request's target name; an Error response carries neither target name nor
    workflow identifier, also when the workflow record has been stored. A
    panic stores nothing and comes from an empty entropy file. *)
Theorem clone_only_appends_tasks
    (cfg : Config) (ValidateQuantity : string -> error)
    (ValidateStorage : string -> string -> bool -> error)
    (request : CloneRequest) (namespace pgouser : string) (w : World) :
  let r :=
    Clone cfg ValidateQuantity ValidateStorage request namespace pgouser w in
  pgclusters (snd r) = pgclusters w
  /\ fst r <> Blocks
  /\ exists added,
       pgtasks (snd r) = pgtasks w ++ map (pair namespace) added
       /\ (length added <= 2)%nat
       /\ (forall response, fst r = Returns response ->
             (Status_Code response = Ok <-> length added = 2%nat)
             /\ (Status_Code response = Ok ->
                 Response_TargetClusterName response
                 = TargetClusterName request)
             /\ (Status_Code response = Error ->
                 Response_TargetClusterName response = EmptyString
                 /\ Response_WorkflowID response = EmptyString))
       /\ (forall why, fst r = Panics why ->
             added = [] /\ fst (uuidFile w) = EmptyString).
Proof.
  intros r.
  destruct (Clone_outcomes cfg ValidateQuantity ValidateStorage request
              namespace pgouser w)
    as (o & w' & made & added & Hrun & _ & Htasks & Hclusters & _ & Ho).
  unfold r. rewrite Hrun. simpl.
  split; [exact Hclusters|].
  split; [intros ->; exact Ho|].
  exists added. split; [exact Htasks|].
  destruct o as [response|why|]; [|destruct Ho as [-> Hu]|contradiction].
  - destruct (Status_Code response) eqn:Hcode.
    + destruct Ho as (Hlen & _ & Htarget & _).
      split; [lia|]. split; [|intros why [=]].
      intros response' [= <-]. rewrite Hcode.
      repeat split; auto; discriminate.
    + destruct Ho as (Hlen & Htarget & Hid & _).
      split; [lia|]. split; [|intros why [=]].
      intros response' [= <-]. rewrite Hcode.
      repeat split; auto; try discriminate. intros H. lia.
  - split; [simpl; lia|]. split; [intros response [=]|].
    intros why' _. auto.
Qed.

(** X12. The requests of [Clone] are always an initial part of one fixed
    sequence: get the source, get the target, list the clone tasks, read the
    entropy file, create the workflow record, create the first step. So it
    makes at most six requests, never creates before it has listed, and
    never lists before both gets; an Ok response means the whole sequence
    was made. *)
Theorem clone_requests_follow_one_sequence
    (cfg : Config) (ValidateQuantity : string -> error)
    (ValidateStorage : string -> string -> bool -> error)
    (request : CloneRequest) (namespace pgouser : string) (w : World) :
  let r :=
    Clone cfg ValidateQuantity ValidateStorage request namespace pgouser w in
  exists made rest,
    asked (snd r) = asked w ++ made
    /\ fullRun = map kindOf made ++ rest
    /\ (length made <= 6)%nat
    /\ (forall response, fst r = Returns response ->
          Status_Code response = Ok -> rest = []).
Proof.
  intros r.
  destruct (Clone_outcomes cfg ValidateQuantity ValidateStorage request
              namespace pgouser w)
    as (o & w' & made & added & Hrun & Hasked & _ & _ & (rest & Hseq) & Ho).
  unfold r. rewrite Hrun. simpl. exists made, rest.
  split; [exact Hasked|]. split; [exact Hseq|]. split.
  - apply (f_equal (@length RequestKind)) in Hseq.
    rewrite length_app, length_map in Hseq. simpl in Hseq. lia.
  - intros response -> Hcode. rewrite Hcode in Ho.
    destruct Ho as (_ & Hfull & _). rewrite Hfull in Hseq.
    destruct rest; [reflexivity|].
    apply (f_equal (@length RequestKind)) in Hseq.
    rewrite length_app in Hseq. simpl in Hseq. lia.
Qed.

(** ** The rejections after validation *)

(** X13. A source cluster annotated as not upgraded is refused once it has
    been read and the request validated: the response is an Error whose
    message is the cluster's name followed by the upgrade text, and the only
    request made is the get of the source; nothing is stored. *)
Theorem clone_rejects_source_not_upgraded
    (cfg : Config) (ValidateQuantity : string -> error)
    (ValidateStorage : string -> string -> bool -> error)
    (request : CloneRequest) (namespace pgouser : string) (w : World)
    (source : Pgcluster) :
  lookupCluster w namespace (SourceClusterName request) = inl source ->
  validateCloneRequest cfg ValidateQuantity ValidateStorage request source
  = None ->
  GoStrings.index (Cluster_Annotations source) (ANNOTATION_IS_UPGRADED cfg)
  = ANNOTATIONS_FALSE cfg ->
  exists w',
    Clone cfg ValidateQuantity ValidateStorage request namespace pgouser w
    = (Returns {| Status_Code := Error;
                  Status_Msg := Cluster_Name source +:+ UpgradeError cfg;
                  Response_TargetClusterName := EmptyString;
                  Response_WorkflowID := EmptyString |}, w')
    /\ GoStrings.Contains (Cluster_Name source +:+ UpgradeError cfg)
         (Cluster_Name source) = true
    /\ asked w'
       = asked w ++ [PgclustersGet namespace (SourceClusterName request)]
    /\ pgtasks w' = pgtasks w.
Proof.
  intros Hsource Hvalid Hup. apply String.eqb_eq in Hup.
  eexists. split.
  - run_clone. rewrite Hsource. cbv beta iota. rewrite Hvalid, Hup.
    reflexivity.
  - split; [apply (Contains_infix EmptyString)|]. split; reflexivity.
Qed.

Lemma clone_rejects_source_not_upgraded_witness :
  exists w',
    Clone Samples.config Samples.anyQuantity Samples.anyStorage
      (Samples.cloneOf "old" "b") "pgo" "alice"
      (Samples.worldFailing Samples.noFault Samples.kernelUuid)
    = (Returns {| Status_Code := Error;
                  Status_Msg := "old has not yet been upgraded";
                  Response_TargetClusterName := EmptyString;
                  Response_WorkflowID := EmptyString |}, w')
    /\ pgtasks w' = [].
Proof.
  destruct (clone_rejects_source_not_upgraded Samples.config
              Samples.anyQuantity Samples.anyStorage
              (Samples.cloneOf "old" "b") "pgo" "alice"
              (Samples.worldFailing Samples.noFault Samples.kernelUuid)
              Samples.staleCluster
              ltac:(vm_compute; reflexivity) ltac:(reflexivity)
              ltac:(vm_compute; reflexivity))
    as (w' & Hrun & _ & _ & Htasks).
  exists w'. split; [exact Hrun|exact Htasks].
Defined.

(** X14. A target name that a get finds is refused: the response is an
    Error whose message names the target as already existing; the two gets
    are the only requests, so no task is listed or created. *)
Theorem clone_rejects_existing_target
    (cfg : Config) (ValidateQuantity : string -> error)
    (ValidateStorage : string -> string -> bool -> error)
    (request : CloneRequest) (namespace pgouser : string) (w : World)
    (source existing : Pgcluster) :
  lookupCluster w namespace (SourceClusterName request) = inl source ->
  validateCloneRequest cfg ValidateQuantity ValidateStorage request source
  = None ->
  GoStrings.index (Cluster_Annotations source) (ANNOTATION_IS_UPGRADED cfg)
  <> ANNOTATIONS_FALSE cfg ->
  lookupCluster w namespace (TargetClusterName request) = inl existing ->
  let msg :=
    "Could not clone cluster: " +:+ TargetClusterName request +:+
    " already exists" in
  exists w',
    Clone cfg ValidateQuantity ValidateStorage request namespace pgouser w
    = (Returns {| Status_Code := Error; Status_Msg := msg;
                  Response_TargetClusterName := EmptyString;
                  Response_WorkflowID := EmptyString |}, w')
    /\ GoStrings.Contains msg (TargetClusterName request) = true
    /\ asked w'
       = asked w ++ [PgclustersGet namespace (SourceClusterName request);
                     PgclustersGet namespace (TargetClusterName request)]
    /\ pgtasks w' = pgtasks w.
Proof.
  intros Hsource Hvalid Hup Htarget msg. apply String.eqb_neq in Hup.
  eexists. split.
  - run_clone. rewrite Hsource. cbv beta iota. rewrite Hvalid, Hup.
    settle. rewrite Htarget. reflexivity.
  - split; [apply Contains_infix|].
    split; [simpl; rewrite <- app_assoc; reflexivity|reflexivity].
Qed.

Lemma clone_rejects_existing_target_witness :
  exists w',
    Clone Samples.config Samples.anyQuantity Samples.anyStorage
      (Samples.cloneOf "a" "taken") "pgo" "alice"
      (Samples.worldFailing Samples.noFault Samples.kernelUuid)
    = (Returns {| Status_Code := Error;
                  Status_Msg :=
                    "Could not clone cluster: taken already exists";
                  Response_TargetClusterName := EmptyString;
                  Response_WorkflowID := EmptyString |}, w')
    /\ pgtasks w' = [].
Proof.
  destruct (clone_rejects_existing_target Samples.config
              Samples.anyQuantity Samples.anyStorage
              (Samples.cloneOf "a" "taken") "pgo" "alice"
              (Samples.worldFailing Samples.noFault Samples.kernelUuid)
              Samples.sourceCluster Samples.takenCluster
              ltac:(vm_compute; reflexivity) ltac:(reflexivity)
              ltac:(vm_compute; discriminate)
              ltac:(vm_compute; reflexivity))
    as (w' & Hrun & _ & _ & Htasks).
  exists w'. split; [exact Hrun|exact Htasks].
Defined.

(** Runs [Clone] up to the end of its conflict check, given in the context
    that the source is found, valid and upgraded, and the target get
    failed. *)
Ltac pass_checks Hsource Hvalid Hup Htarget :=
  run_clone; rewrite Hsource; cbv beta iota; rewrite Hvalid, Hup;
  settle; rewrite Htarget; cbv beta iota; settle.

(** X15. When the target get fails, for whatever reason, the clone goes on
    to list the clone tasks of the target; when that list fails, the
    response is an Error giving the list's error, after three requests and
    with nothing stored. *)
Theorem clone_rejects_when_list_fails
    (cfg : Config) (ValidateQuantity : string -> error)
    (ValidateStorage : string -> string -> bool -> error)
    (request : CloneRequest) (namespace pgouser : string) (w : World)
    (source : Pgcluster) (notFound e : string) :
  lookupCluster w namespace (SourceClusterName request) = inl source ->
  validateCloneRequest cfg ValidateQuantity ValidateStorage request source
  = None ->
  GoStrings.index (Cluster_Annotations source) (ANNOTATION_IS_UPGRADED cfg)
  <> ANNOTATIONS_FALSE cfg ->
  lookupCluster w namespace (TargetClusterName request) = inr notFound ->
  selectTasks w namespace (cloneSelector cfg request) = inr e ->
  exists w',
    Clone cfg ValidateQuantity ValidateStorage request namespace pgouser w
    = (Returns {| Status_Code := Error;
                  Status_Msg :=
                    "Could not clone cluster: could not validate " +:+ e;
                  Response_TargetClusterName := EmptyString;
                  Response_WorkflowID := EmptyString |}, w')
    /\ asked w'
       = asked w ++ [PgclustersGet namespace (SourceClusterName request);
                     PgclustersGet namespace (TargetClusterName request);
                     PgtasksList namespace (cloneSelector cfg request)]
    /\ pgtasks w' = pgtasks w.
Proof.
  intros Hsource Hvalid Hup Htarget Hlist. apply String.eqb_neq in Hup.
  eexists. split.
  - pass_checks Hsource Hvalid Hup Htarget. rewrite Hlist. reflexivity.
  - split; [simpl; rewrite <- !app_assoc; reflexivity|reflexivity].
Qed.

Lemma clone_rejects_when_list_fails_witness :
  exists w',
    Clone Samples.config Samples.anyQuantity Samples.anyStorage
      (Samples.cloneOf "a" "b") "pgo" "alice"
      (Samples.worldFailing Samples.failingLists Samples.kernelUuid)
    = (Returns {| Status_Code := Error;
                  Status_Msg :=
                    "Could not clone cluster: could not validate the server is currently unable to handle the request";
                  Response_TargetClusterName := EmptyString;
                  Response_WorkflowID := EmptyString |}, w')
    /\ pgtasks w' = [].
Proof.
  destruct (clone_rejects_when_list_fails Samples.config
              Samples.anyQuantity Samples.anyStorage
              (Samples.cloneOf "a" "b") "pgo" "alice"
              (Samples.worldFailing Samples.failingLists Samples.kernelUuid)
              Samples.sourceCluster "pgclusters.crunchydata.com b not found"
              "the server is currently unable to handle the request"
              ltac:(vm_compute; reflexivity) ltac:(reflexivity)
              ltac:(vm_compute; discriminate)
              ltac:(vm_compute; reflexivity) ltac:(vm_compute; reflexivity))
    as (w' & Hrun & _ & Htasks).
  exists w'. split; [exact Hrun|exact Htasks].
Defined.

(** X16. When the workflow record cannot be made, because the entropy file
    cannot be read or because its create is refused, the response is an
    Error that says so and gives the cause, no task is stored, and no create
    of the first step is attempted; when the read fails, no create is
    attempted at all. *)
Theorem clone_stops_when_workflow_record_fails
    (cfg : Config) (ValidateQuantity : string -> error)
    (ValidateStorage : string -> string -> bool -> error)
    (request : CloneRequest) (namespace pgouser : string) (w : World)
    (source : Pgcluster) (notFound : string) (items : list Pgtask) :
  lookupCluster w namespace (SourceClusterName request) = inl source ->
  validateCloneRequest cfg ValidateQuantity ValidateStorage request source
  = None ->
  GoStrings.index (Cluster_Annotations source) (ANNOTATION_IS_UPGRADED cfg)
  <> ANNOTATIONS_FALSE cfg ->
  lookupCluster w namespace (TargetClusterName request) = inr notFound ->
  selectTasks w namespace (cloneSelector cfg request) = inl items ->
  find (isPending cfg) items = None ->
  let r :=
    Clone cfg ValidateQuantity ValidateStorage request namespace pgouser w in
  let checks :=
    [PgclustersGet namespace (SourceClusterName request);
     PgclustersGet namespace (TargetClusterName request);
     PgtasksList namespace (cloneSelector cfg request);
     ReadFile "/proc/sys/kernel/random/uuid"] in
  let refused (e : string) :=
    Returns {| Status_Code := Error;
               Status_Msg := "could not create clone workflow task: " +:+ e;
               Response_TargetClusterName := EmptyString;
               Response_WorkflowID := EmptyString |} in
  (forall u e, uuidFile w = (u, Some e) ->
     fst r = refused e
     /\ asked (snd r) = asked w ++ checks
     /\ pgtasks (snd r) = pgtasks w)
  /\ (forall u e, uuidFile w = (u, None) -> u <> EmptyString ->
        let record :=
          workflowTask cfg (TargetClusterName request) (randString w 4)
            namespace (dropLast u) (clock w) in
        apiFault w (PgtasksCreate namespace record) = Some e ->
        fst r = refused e
        /\ asked (snd r)
           = asked w ++ checks ++ [PgtasksCreate namespace record]
        /\ pgtasks (snd r) = pgtasks w).
Proof.
  intros Hsource Hvalid Hup Htarget Hlist Hfind r checks refused.
  apply String.eqb_neq in Hup. unfold r. split.
  - intros u e Hu.
    pass_checks Hsource Hvalid Hup Htarget. rewrite Hlist. cbv beta iota.
    rewrite Hfind. settle. rewrite Hu. cbv beta iota.
    split; [reflexivity|].
    split; [simpl; rewrite <- !app_assoc; reflexivity|reflexivity].
  - intros u e Hu Hne Hcreate.
    assert (Hslice : forall w0, sliceToLast u w0 = (Returns (dropLast u), w0))
      by (intros w0; destruct u; [contradiction|reflexivity]).
    pass_checks Hsource Hvalid Hup Htarget. rewrite Hlist. cbv beta iota.
    rewrite Hfind. settle. rewrite Hu. cbv beta iota. rewrite Hslice.
    cbv beta iota. settle. rewrite Hcreate. cbv beta iota.
    split; [reflexivity|].
    split; [simpl; rewrite <- !app_assoc; reflexivity|reflexivity].
Qed.

Lemma clone_stops_when_workflow_record_fails_witness :
  fst (Clone Samples.config Samples.anyQuantity Samples.anyStorage
         (Samples.cloneOf "a" "b") "pgo" "alice"
         (Samples.worldFailing Samples.noFault
            (EmptyString, Some "open /proc/sys/kernel/random/uuid: no such file")))
  = Returns
      {| Status_Code := Error;
         Status_Msg :=
           "could not create clone workflow task: open /proc/sys/kernel/random/uuid: no such file";
         Response_TargetClusterName := EmptyString;
         Response_WorkflowID := EmptyString |}.
Proof.
  refine (proj1 (proj1
    (clone_stops_when_workflow_record_fails Samples.config
       Samples.anyQuantity Samples.anyStorage (Samples.cloneOf "a" "b")
       "pgo" "alice"
       (Samples.worldFailing Samples.noFault
          (EmptyString, Some "open /proc/sys/kernel/random/uuid: no such file"))
       Samples.sourceCluster "pgclusters.crunchydata.com b not found" []
       _ _ _ _ _ _) EmptyString
    "open /proc/sys/kernel/random/uuid: no such file" _));
    try reflexivity; vm_compute; try reflexivity; discriminate.
Defined.

(** X17. When the workflow record has been created and the create of the
    first step is refused, the response is an Error giving the cause and
    carrying no workflow identifier, and the workflow record stays in the
    store: the clone is not rolled back. *)
Theorem clone_leaves_workflow_record_when_step_fails
    (cfg : Config) (ValidateQuantity : string -> error)
    (ValidateStorage : string -> string -> bool -> error)
    (request : CloneRequest) (namespace pgouser : string) (w : World)
    (source : Pgcluster) (notFound : string) (items : list Pgtask)
    (u e : string) :
  lookupCluster w namespace (SourceClusterName request) = inl source ->
  validateCloneRequest cfg ValidateQuantity ValidateStorage request source
  = None ->
  GoStrings.index (Cluster_Annotations source) (ANNOTATION_IS_UPGRADED cfg)
  <> ANNOTATIONS_FALSE cfg ->
  lookupCluster w namespace (TargetClusterName request) = inr notFound ->
  selectTasks w namespace (cloneSelector cfg request) = inl items ->
  find (isPending cfg) items = None ->
  uuidFile w = (u, None) ->
  u <> EmptyString ->
  let target := TargetClusterName request in
  let id := dropLast u in
  let record :=
    workflowTask cfg target (randString w 4) namespace id (clock w) in
  let step :=
    CloneTask_Create cfg
      {| CT_BackrestPVCSize := BackrestPVCSize request;
         CT_BackrestStorageSource := BackrestStorageSource request;
         CT_EnableMetrics := EnableMetrics request;
         CT_PGOUser := pgouser;
         CT_PVCSize := PVCSize request;
         CT_SourceClusterName := SourceClusterName request;
         CT_TargetClusterName := target;
         CT_TaskStepLabel := LABEL_PGO_CLONE_STEP_1 cfg;
         CT_TaskType := PgtaskCloneStep1 cfg;
         CT_Timestamp := clock w;
         CT_WorkflowID := id |} in
  apiFault w (PgtasksCreate namespace record) = None ->
  apiFault w (PgtasksCreate namespace step) = Some e ->
  exists w',
    Clone cfg ValidateQuantity ValidateStorage request namespace pgouser w
    = (Returns {| Status_Code := Error;
                  Status_Msg := "Could not create clone task: " +:+ e;
                  Response_TargetClusterName := EmptyString;
                  Response_WorkflowID := EmptyString |}, w')
    /\ pgtasks w' = pgtasks w ++ [(namespace, record)]
    /\ Task_Labels record !! PgtaskWorkflowID cfg = Some id.
Proof.
  intros Hsource Hvalid Hup Htarget Hlist Hfind Hu Hne target id record step
    Hrecord Hstep.
  apply String.eqb_neq in Hup.
  assert (Hslice : forall w0, sliceToLast u w0 = (Returns id, w0))
    by (intros w0; destruct u; [contradiction|reflexivity]).
  eexists. split.
  - pass_checks Hsource Hvalid Hup Htarget. rewrite Hlist. cbv beta iota.
    rewrite Hfind. settle. rewrite Hu. cbv beta iota. rewrite Hslice.
    cbv beta iota. settle. fold target. fold id. fold record.
    rewrite Hrecord. cbv beta iota zeta. settle. fold step. rewrite Hstep.
    reflexivity.
  - split; [reflexivity|]. apply lookup_insert_eq.
Qed.

Lemma clone_leaves_workflow_record_when_step_fails_witness :
  exists w',
    Clone Samples.config Samples.anyQuantity Samples.anyStorage
      (Samples.cloneOf "a" "b") "pgo" "alice"
      (Samples.worldFailing Samples.failingStepCreate Samples.kernelUuid)
    = (Returns {| Status_Code := Error;
                  Status_Msg :=
                    "Could not create clone task: pgtasks.crunchydata.com is forbidden";
                  Response_TargetClusterName := EmptyString;
                  Response_WorkflowID := EmptyString |}, w')
    /\ length (pgtasks w') = 1%nat.
Proof.
  destruct (clone_leaves_workflow_record_when_step_fails Samples.config
              Samples.anyQuantity Samples.anyStorage (Samples.cloneOf "a" "b")
              "pgo" "alice"
              (Samples.worldFailing Samples.failingStepCreate
                 Samples.kernelUuid)
              Samples.sourceCluster "pgclusters.crunchydata.com b not found"
              [] ("1b4e28ba-2fa1-11d2-883f-0016d3cca427" +:+ Samples.newline)
              "pgtasks.crunchydata.com is forbidden"
              ltac:(vm_compute; reflexivity) ltac:(reflexivity)
              ltac:(vm_compute; discriminate)
              ltac:(vm_compute; reflexivity) ltac:(vm_compute; reflexivity)
              ltac:(reflexivity) ltac:(reflexivity) ltac:(discriminate)
              ltac:(vm_compute; reflexivity) ltac:(vm_compute; reflexivity))
    as (w' & Hrun & Htasks & _).
  exists w'. split; [exact Hrun|]. rewrite Htasks. reflexivity.
Defined.

(** X18. When the entropy file reads as empty without an error, slicing
    off its last byte is out of range: [Clone] panics after the read,
    instead of returning an Error response, having stored nothing. *)
Theorem clone_panics_on_empty_entropy_file
    (cfg : Config) (ValidateQuantity : string -> error)
    (ValidateStorage : string -> string -> bool -> error)
    (request : CloneRequest) (namespace pgouser : string) (w : World)
    (source : Pgcluster) (notFound : string) (items : list Pgtask) :
  lookupCluster w namespace (SourceClusterName request) = inl source ->
  validateCloneRequest cfg ValidateQuantity ValidateStorage request source
  = None ->
  GoStrings.index (Cluster_Annotations source) (ANNOTATION_IS_UPGRADED cfg)
  <> ANNOTATIONS_FALSE cfg ->
  lookupCluster w namespace (TargetClusterName request) = inr notFound ->
  selectTasks w namespace (cloneSelector cfg request) = inl items ->
  find (isPending cfg) items = None ->
  uuidFile w = (EmptyString, None) ->
  exists w',
    Clone cfg ValidateQuantity ValidateStorage request namespace pgouser w
    = (Panics "slice bounds out of range [:-1]", w')
    /\ asked w'
       = asked w ++ [PgclustersGet namespace (SourceClusterName request);
                     PgclustersGet namespace (TargetClusterName request);
                     PgtasksList namespace (cloneSelector cfg request);
                     ReadFile "/proc/sys/kernel/random/uuid"]
    /\ pgtasks w' = pgtasks w.
Proof.
  intros Hsource Hvalid Hup Htarget Hlist Hfind Hu.
  apply String.eqb_neq in Hup. eexists. split.
  - pass_checks Hsource Hvalid Hup Htarget. rewrite Hlist. cbv beta iota.
    rewrite Hfind. settle. rewrite Hu. reflexivity.
  - split; [simpl; rewrite <- !app_assoc; reflexivity|reflexivity].
Qed.

Lemma clone_panics_on_empty_entropy_file_witness :
  exists w',
    Clone Samples.config Samples.anyQuantity Samples.anyStorage
      (Samples.cloneOf "a" "b") "pgo" "alice"
      (Samples.worldFailing Samples.noFault (EmptyString, None))
    = (Panics "slice bounds out of range [:-1]", w')
    /\ pgtasks w' = [].
Proof.
  destruct (clone_panics_on_empty_entropy_file Samples.config
              Samples.anyQuantity Samples.anyStorage (Samples.cloneOf "a" "b")
              "pgo" "alice"
              (Samples.worldFailing Samples.noFault (EmptyString, None))
              Samples.sourceCluster "pgclusters.crunchydata.com b not found"
              []
              ltac:(vm_compute; reflexivity) ltac:(reflexivity)
              ltac:(vm_compute; discriminate)
              ltac:(vm_compute; reflexivity) ltac:(vm_compute; reflexivity)
              ltac:(reflexivity) ltac:(reflexivity))
    as (w' & Hrun & _ & Htasks).
  exists w'. split; [exact Hrun|exact Htasks].
Defined.

(** ** The workflow record *)

Lemma dropLast_snoc (token : string) (last : ascii) :
  dropLast (token +:+ String last EmptyString) = token.
Proof.
  induction token as [|c token IH]; [reflexivity|].
  change (dropLast (String c (token +:+ String last EmptyString))
          = String c token).
  simpl. rewrite IH.
  destruct (token +:+ String last EmptyString) eqn:E; [|reflexivity].
  destruct token; discriminate.
Qed.

(** X19. The workflow identifier is the content of the entropy file less
    its last byte, whatever that byte is: for a file that reads as a token
    followed by one byte, [createWorkflowTask] returns the token, and the one
    task it stores is named after target, uid and workflow type, has type
    workflow and carries the token as its workflow label and parameter. *)
Theorem createWorkflowTask_returns_token
    (cfg : Config) (targetClusterName uid namespace : string) (w : World)
    (token : string) (last : ascii) :
  uuidFile w = (token +:+ String last EmptyString, None) ->
  let record :=
    workflowTask cfg targetClusterName uid namespace token (clock w) in
  apiFault w (PgtasksCreate namespace record) = None ->
  exists w',
    createWorkflowTask cfg targetClusterName uid namespace w
    = (Returns (token, None), w')
    /\ pgtasks w' = pgtasks w ++ [(namespace, record)]
    /\ asked w'
       = asked w ++ [ReadFile "/proc/sys/kernel/random/uuid";
                     PgtasksCreate namespace record]
    /\ Task_Name record
       = targetClusterName +:+ "-" +:+ uid +:+ "-" +:+
         PgtaskWorkflowCloneType cfg
    /\ Spec_TaskType (Task_Spec record) = PgtaskWorkflow cfg
    /\ Task_Labels record !! PgtaskWorkflowID cfg = Some token
    /\ Spec_Parameters (Task_Spec record) !! PgtaskWorkflowID cfg = Some token.
Proof.
  intros Hu record Hcreate.
  assert (Hslice : forall w0,
            sliceToLast (token +:+ String last EmptyString) w0
            = (Returns token, w0)).
  { intros w0. unfold sliceToLast, ret. rewrite dropLast_snoc.
    destruct token; reflexivity. }
  eexists. split.
  - unfold createWorkflowTask, bind, ioutil_ReadFile, time_Now,
      Pgtasks_Create, ret.
    cbv beta iota. rewrite Hu. cbv beta iota. rewrite Hslice.
    cbv beta iota. settle. fold record. rewrite Hcreate. reflexivity.
  - split; [reflexivity|].
    split; [simpl; rewrite <- !app_assoc; reflexivity|].
    split; [reflexivity|]. split; [reflexivity|].
    split; apply lookup_insert_eq.
Qed.

(** The kernel's answer: a uuid and a newline. *)
Lemma createWorkflowTask_returns_token_witness :
  exists w',
    createWorkflowTask Samples.config "b" "kzwm" "pgo" Samples.freshWorld
    = (Returns ("1b4e28ba-2fa1-11d2-883f-0016d3cca427", None), w')
    /\ length (pgtasks w') = 1%nat.
Proof.
  destruct (createWorkflowTask_returns_token Samples.config "b" "kzwm" "pgo"
              Samples.freshWorld "1b4e28ba-2fa1-11d2-883f-0016d3cca427"
              (Ascii.ascii_of_nat 10)
              ltac:(reflexivity) ltac:(reflexivity))
    as (w' & Hrun & Htasks & _).
  exists w'. split; [exact Hrun|]. rewrite Htasks. reflexivity.
Defined.

(** * The cost of waiting, and when passwords are rotated *)

Section ProbeFacts.

Variable cfg : Config.
Variable parseJSON : string -> option Json.any.

Lemma filter_other_step (n : nat) (l : list Call) :
  n <> 2%nat ->
  Forall (fun c => stepOf c = n) l ->
  List.filter (fun c => Nat.eqb (stepOf c) 2) l = [].
Proof.
  intros Hn. induction 1 as [|c l Hc _ IH]; simpl; [reflexivity|].
  rewrite Hc. destruct (Nat.eqb_spec n 2); [contradiction|exact IH].
Qed.

Lemma waitLoop_in_recovery (newPod : Pod) (cluster : Pgcluster)
    (c : Container) (cs : list Container) (ticks : list fired) :
  Pod_Containers newPod = c :: cs ->
  Forall (fun d => exists exec, what d = Tick exec
                                /\ stillInRecovery newPod exec) ticks ->
  calls (waitLoop cfg parseJSON newPod cluster false ticks)
  = map (fun d =>
           (at_ms d,
            ExecToPodThroughAPI isInRecoveryCMD (Container_Name c)
              (Pod_Name newPod) (Pod_Namespace newPod))) ticks
  /\ recoveryDisabledAfter cfg parseJSON newPod false ticks = Some false.
Proof.
  intros Hc. induction 1 as [|[t ev] ticks (exec & He & Hs) _ IH]; simpl.
  - split; reflexivity.
  - simpl in He. subst ev.
    destruct (pollOnce_enabled cfg parseJSON newPod exec c cs Hc) as [Hno _].
    rewrite (Hno Hs). simpl. destruct IH as [-> ->]. split; reflexivity.
Qed.

Lemma waitLoop_waiting_for_leader (newPod : Pod) (cluster : Pgcluster)
    (c : Container) (cs : list Container) (ticks : list fired) :
  Pod_Containers newPod = c :: cs ->
  Forall (fun d => exists exec, what d = Tick exec
                     /\ leaderNotReady cfg parseJSON newPod exec) ticks ->
  calls (waitLoop cfg parseJSON newPod cluster true ticks)
  = map (fun d =>
           (at_ms d,
            ExecToPodThroughAPI (leaderStatusCMD cfg) (Container_Name c)
              (Pod_Name newPod) (Pod_Namespace newPod))) ticks.
Proof.
  intros Hc. induction 1 as [|[t ev] ticks (exec & He & Hs) _ IH]; simpl.
  - reflexivity.
  - simpl in He. subst ev.
    rewrite (pollOnce_malformed cfg parseJSON newPod exec c cs Hc Hs).
    simpl. rewrite IH. reflexivity.
Qed.

Lemma waitLoop_app_calls (newPod : Pod) (cluster : Pgcluster)
    (first later : list fired) :
  forall rd rd',
    recoveryDisabledAfter cfg parseJSON newPod rd first = Some rd' ->
    calls (waitLoop cfg parseJSON newPod cluster rd (first ++ later))
    = calls (waitLoop cfg parseJSON newPod cluster rd first)
      ++ calls (waitLoop cfg parseJSON newPod cluster rd' later).
Proof.
  induction first as [|[t [exec|]] rest IH]; intros rd rd' H; simpl in *.
  - injection H as ->. reflexivity.
  - destruct (pollOnce cfg parseJSON newPod exec rd) as [[rd1|o] asked];
      simpl in *; [|discriminate].
    rewrite (IH rd1 rd' H), app_assoc. reflexivity.
  - discriminate.
Qed.

End ProbeFacts.

(** X20. Each tick at which nothing changes costs one command. While the
    is-in-recovery output has no [f], a tick runs that query and nothing
    else, so the leader status is not probed while the pod is in recovery;
    once the flag is set, a tick at which the leader is not ready runs the
    leader status probe and nothing else. *)
Theorem wait_costs_one_probe_per_idle_tick
    (cfg : Config) (parseJSON : string -> option Json.any)
    (newPod : Pod) (cluster : Pgcluster) (c : Container) (cs : list Container)
    (recovering waiting : list fired) :
  Pod_Containers newPod = c :: cs ->
  Forall (fun d => exists exec, what d = Tick exec
                                /\ stillInRecovery newPod exec) recovering ->
  Forall (fun d => exists exec, what d = Tick exec
                     /\ leaderNotReady cfg parseJSON newPod exec) waiting ->
  calls (waitForStandbyPromotion cfg parseJSON newPod cluster recovering)
  = map (fun d =>
           (at_ms d,
            ExecToPodThroughAPI isInRecoveryCMD (Container_Name c)
              (Pod_Name newPod) (Pod_Namespace newPod))) recovering
  /\ forall first,
       recoveryDisabledAfter cfg parseJSON newPod false first = Some true ->
       calls (waitForStandbyPromotion cfg parseJSON newPod cluster
                (first ++ waiting))
       = calls (waitForStandbyPromotion cfg parseJSON newPod cluster first)
         ++ map (fun d =>
                   (at_ms d,
                    ExecToPodThroughAPI (leaderStatusCMD cfg)
                      (Container_Name c) (Pod_Name newPod)
                      (Pod_Namespace newPod))) waiting.
Proof.
  intros Hc Hrec Hwait. split.
  - apply (waitLoop_in_recovery cfg parseJSON newPod cluster c cs recovering
             Hc Hrec).
  - intros first Hfirst. unfold waitForStandbyPromotion.
    rewrite (waitLoop_app_calls cfg parseJSON newPod cluster first waiting
               false true Hfirst).
    rewrite (waitLoop_waiting_for_leader cfg parseJSON newPod cluster c cs
               waiting Hc Hwait).
    reflexivity.
Qed.

(** Two ticks in recovery: two recovery queries and no status probe. *)
Lemma wait_costs_one_probe_per_idle_tick_witness :
  calls
    (waitForStandbyPromotion Samples.config Samples.parse Samples.pod
       Samples.cluster
       [{| at_ms := 500; what := Tick Samples.inRecovery |};
        {| at_ms := 1000; what := Tick Samples.inRecovery |}])
  = [(500, ExecToPodThroughAPI isInRecoveryCMD "database" "hippo-7c9d" "pgo");
     (1000, ExecToPodThroughAPI isInRecoveryCMD "database" "hippo-7c9d" "pgo")].
Proof.
  refine (proj1
    (wait_costs_one_probe_per_idle_tick Samples.config Samples.parse
       Samples.pod Samples.cluster {| Container_Name := "database" |} []
       [{| at_ms := 500; what := Tick Samples.inRecovery |};
        {| at_ms := 1000; what := Tick Samples.inRecovery |}]
       [] _ _ _)).
  - reflexivity.
  - repeat constructor; eexists; (split; [reflexivity|]); reflexivity.
  - constructor.
Defined.

(** X21. The standby handler asks for the password rotation task exactly
    when the wait has returned nil and the cluster's pgBouncer label is the
    string [true]; a label that is missing or spelled otherwise, a timeout
    or a panic of the wait mean no rotation. When it asks, it asks once, for
    this cluster and with the rotation parameters. *)
Theorem rotation_requested_iff_waited_and_enabled
    (cfg : Config) (parseJSON : string -> option Json.any) (env : Env)
    (deliveries : list fired) (newPod : Pod) (cluster : Pgcluster) :
  let waited :=
    waitForStandbyPromotion cfg parseJSON newPod cluster deliveries in
  let r := handleStandbyPromotion cfg parseJSON env deliveries newPod cluster in
  let rotation :=
    CreatePgTaskforUpdatepgBouncer cluster EmptyString
      (rotationParameters cfg cluster) in
  let requested :=
    List.filter (fun c => Nat.eqb (stepOf c) 2) (snd r) in
  (requested = [rotation]
   <-> result waited = Returns None
       /\ GoStrings.index (Cluster_Labels cluster) (LABEL_PGBOUNCER cfg)
          = "true")
  /\ (requested = [] \/ requested = [rotation]).
Proof.
  intros waited r rotation requested.
  pose proof (waitLoop_calls_are_probes cfg parseJSON newPod cluster false
                deliveries) as Hprobes.
  fold (waitForStandbyPromotion cfg parseJSON newPod cluster deliveries)
    in Hprobes. fold waited in Hprobes.
  apply (filter_other_step 1) in Hprobes; [|discriminate].
  pose proof (backup_calls_are_backup cfg env (Cluster_Name cluster)
                (Cluster_Namespace cluster)) as Hbackup.
  apply (filter_other_step 3) in Hbackup; [|discriminate].
  unfold requested, r, handleStandbyPromotion. fold waited.
  destruct (result waited) as [[e|]| |]; simpl;
    try (rewrite Hprobes; split; [|left; reflexivity];
         split; [discriminate|intros [[=] _]]).
  destruct (String.eqb_spec
              (GoStrings.index (Cluster_Labels cluster) (LABEL_PGBOUNCER cfg))
              "true") as [Hl|Hl].
  - destruct (answerCreatePgTaskforUpdatepgBouncer env cluster EmptyString
                (rotationParameters cfg cluster)) as [e|]; simpl.
    + rewrite List.filter_app, Hprobes. simpl.
      split; [|right; reflexivity]. split; auto.
    + destruct (cleanAndCreatePostFailoverBackup cfg env (Cluster_Name cluster)
                  (Cluster_Namespace cluster)) as [o asked]; simpl in *.
      rewrite !List.filter_app, Hprobes. simpl. rewrite Hbackup.
      split; [|right; reflexivity]. split; auto.
  - destruct (cleanAndCreatePostFailoverBackup cfg env (Cluster_Name cluster)
                (Cluster_Namespace cluster)) as [o asked]; simpl in *.
    rewrite List.filter_app, Hprobes, Hbackup. simpl.
    split; [|left; reflexivity].
    split; [discriminate|intros [_ H]; contradiction].
Qed.
